(** * Bookworm backend (server.js): login-or-register, bearer tokens and
      the guarded per-user routes.

    The handlers of server.js are embedded as functions over an explicit
    database state (the [User] and [ReadingList] collections) and an explicit
    environment (clock, salt randomness, signing secret).  The packages the
    file calls -- bcryptjs and jsonwebtoken -- are interfaces ([Bcrypt],
    [JwtPrims]); a small executable instance of each is given in [Toy] so
    that every handler can be run on concrete requests. *)

From Stdlib Require Import ZArith Ascii String List Bool Lia Sorted Permutation.
From stdpp Require Import base option list strings gmap.

Local Open Scope string_scope.
Local Open Scope Z_scope.

(** ** JavaScript strings

    A JavaScript string is a sequence of code units; [string] holds the code
    units below 256, one per [ascii]. *)

Module JsString.

(** [s.split(sep)] for a one-character separator: cuts at every occurrence,
    keeps empty pieces, and never returns the empty array. *)
Fixpoint split (sep : ascii) (s : string) : list string :=
  match s with
  | EmptyString => [EmptyString]
  | String c s' =>
      if Ascii.eqb c sep then EmptyString :: split sep s'
      else match split sep s' with
           | [] => [String c EmptyString]
           | piece :: pieces => String c piece :: pieces
           end
  end.

(** White space and line terminators of ECMAScript among the code units
    below 256: TAB, LF, VT, FF, CR, SP and NBSP. *)
Definition is_space (c : ascii) : bool :=
  let n := nat_of_ascii c in
  (Nat.eqb n 9 || Nat.eqb n 10 || Nat.eqb n 11 || Nat.eqb n 12
   || Nat.eqb n 13 || Nat.eqb n 32 || Nat.eqb n 160)%bool.

Fixpoint trimStart (s : string) : string :=
  match s with
  | EmptyString => EmptyString
  | String c s' => if is_space c then trimStart s' else s
  end.

Fixpoint trimEnd (s : string) : string :=
  match s with
  | EmptyString => EmptyString
  | String c s' =>
      match trimEnd s' with
      | EmptyString => if is_space c then EmptyString else String c EmptyString
      | t => String c t
      end
  end.

(** [s.trim()] *)
Definition trim (s : string) : string := trimEnd (trimStart s).

(** [s.endsWith(suffix)]: the last [length suffix] code units of [s] are
    [suffix]; false when [s] is shorter. *)
Definition endsWith (s suffix : string) : bool :=
  let n := String.length s in
  let m := String.length suffix in
  (Nat.leb m n && String.eqb (substring (n - m) m s) suffix)%bool.

(** Every code unit of [s] satisfies [p]. *)
Fixpoint all_chars (p : ascii -> bool) (s : string) : bool :=
  match s with
  | EmptyString => true
  | String c s' => (p c && all_chars p s')%bool
  end.

End JsString.

Example split_bearer :
  JsString.split " " "Bearer abc.def" = ["Bearer"; "abc.def"].
Proof. reflexivity. Qed.

Example split_empty : JsString.split " " "" = [""].
Proof. reflexivity. Qed.

Example split_double_space : JsString.split " " "a  b" = ["a"; ""; "b"].
Proof. reflexivity. Qed.

Example trim_both : JsString.trim "  ab c  " = "ab c".
Proof. reflexivity. Qed.

Example endsWith_gmail : JsString.endsWith "a@gmail.com" "@gmail.com" = true.
Proof. reflexivity. Qed.

Example endsWith_short : JsString.endsWith "gmail.com" "@gmail.com" = false.
Proof. reflexivity. Qed.

(** ** Values of a parsed JSON body

    What [express.json()] hands to a handler for one field of [req.body].
    [JUndefined] is a missing field.  [JObject] stands for any array or
    object: the handlers only test such a value for truthiness and call a
    string method on it, and neither depends on its contents.  Numbers are
    the integral ones. *)
Inductive jsval : Type :=
  | JUndefined
  | JNull
  | JBool (b : bool)
  | JNum (n : Z)
  | JStr (s : string)
  | JObject.

(** JavaScript truthiness, the negation of [!v]. *)
Definition truthy (v : jsval) : bool :=
  match v with
  | JUndefined | JNull => false
  | JBool b => b
  | JNum n => negb (n =? 0)
  | JStr s => negb (String.eqb s "")
  | JObject => true
  end.

(** ** Collections (UserSchema, ReadingListSchema) *)

(** A document of the [User] collection.  [createdAt] is a time in
    milliseconds, as [Date.now] returns it. *)
Record User : Type := mkUser {
  email : string;
  passwordHash : string;
  createdAt : Z
}.

(** A document of the [ReadingList] collection. *)
Record ReadingItem : Type := mkReadingItem {
  userEmail : string;
  bookKey : string;
  title : option string;
  coverId : option Z;
  authors : list string;
  item_createdAt : Z
}.

(** The database: each collection in insertion order. *)
Record DB : Type := mkDB {
  users : list User;
  readingList : list ReadingItem
}.

(** ** Responses *)

Inductive Body : Type :=
  | BError (error : string)              (* { error: ... } *)
  | BToken (token : string) (mail : string)  (* { token, email } *)
  | BUser (doc : gmap string jsval)      (* a User document, as an object *)
  | BItem (item : ReadingItem)           (* a ReadingList document *)
  | BNull.                               (* null *)

Record Response : Type := mkResponse {
  status : Z;
  body : Body
}.

(** [res.status(code).json({ error: msg })] *)
Definition error_response (code : Z) (msg : string) : Response :=
  mkResponse code (BError msg).

(** [res.json(b)] *)
Definition json_response (b : Body) : Response := mkResponse 200 b.

(** ** Exceptions and the handler monad

    A handler body runs against the database and either returns or throws;
    writes made before a throw stay (no transaction is opened anywhere). *)
Inductive exn : Type :=
  | TypeError (msg : string)
  | IllegalArguments           (* bcryptjs: argument of the wrong type *)
  | ValidationError (path : string)  (* Mongoose: a required path is empty *)
  | DuplicateKey (key : string).     (* MongoDB E11000 *)

Inductive outcome (A : Type) : Type :=
  | Ret (a : A)
  | Throw (e : exn).
Arguments Ret {A} a.
Arguments Throw {A} e.

Definition M (A : Type) : Type := DB -> outcome A * DB.

Definition ret {A} (a : A) : M A := fun db => (Ret a, db).
Definition throw {A} (e : exn) : M A := fun db => (Throw e, db).
Definition bind {A B} (m : M A) (k : A -> M B) : M B :=
  fun db => match m db with
            | (Ret a, db') => k a db'
            | (Throw e, db') => (Throw e, db')
            end.

Notation "x <- m ;; k" := (bind m (fun x => k))
  (at level 100, m at next level, right associativity).

(** [try { body } catch (err) { res.status(500).json({ error: msg }) }] *)
Definition try_catch (m : M Response) (msg : string) : DB -> Response * DB :=
  fun db => match m db with
            | (Ret r, db') => (r, db')
            | (Throw _, db') => (error_response 500 msg, db')
            end.

(** ** Mongoose model operations *)

(** The filter [{ email: e }]. *)
Definition has_email (e : string) (u : User) : bool := String.eqb (email u) e.

(** [User.findOne({ email })]: the first document with that email. *)
Definition User_findOne (e : string) : M (option User) :=
  fun db => (Ret (List.find (has_email e) (users db)), db).

(** [User.create({ email, passwordHash })]: both paths are required (an
    empty string does not satisfy [required]), [createdAt] defaults to the
    clock, and the unique index on [email] refuses a second document. *)
Definition User_create (e h : string) (now : Z) : M User :=
  fun db =>
    if String.eqb e "" then (Throw (ValidationError "email"), db)
    else if String.eqb h "" then (Throw (ValidationError "passwordHash"), db)
    else if existsb (has_email e) (users db)
         then (Throw (DuplicateKey e), db)
    else let u := mkUser e h now in
         (Ret u, mkDB (users db ++ [u]) (readingList db)).

(** The filter [{ userEmail: e, bookKey: k }]. *)
Definition has_entry (e k : string) (i : ReadingItem) : bool :=
  (String.eqb (userEmail i) e && String.eqb (bookKey i) k)%bool.

(** [ReadingList.findOne({ userEmail, bookKey })] *)
Definition ReadingList_findOne (e k : string) : M (option ReadingItem) :=
  fun db => (Ret (List.find (has_entry e k) (readingList db)), db).

(** [ReadingList.create({ userEmail, bookKey, title, coverId, authors })]:
    [userEmail] and [bookKey] are required, an absent [authors] is the empty
    array, [createdAt] defaults to the clock.  The collection has no unique
    index. *)
Definition ReadingList_create (e k : string) (t : option string)
    (cid : option Z) (auth : option (list string)) (now : Z) : M ReadingItem :=
  fun db =>
    if String.eqb e "" then (Throw (ValidationError "userEmail"), db)
    else if String.eqb k "" then (Throw (ValidationError "bookKey"), db)
    else let i := mkReadingItem e k t cid (default [] auth) now in
         (Ret i, mkDB (users db) (readingList db ++ [i])).

(** A [User] document as the object [res.json] serialises, with the paths
    of UserSchema; the date is kept as its timestamp, and the [_id] and
    [__v] paths MongoDB adds are left out. *)
Definition User_toObject (u : User) : gmap string jsval :=
  <["email" := JStr (email u)]>
  (<["passwordHash" := JStr (passwordHash u)]>
  (<["createdAt" := JNum (createdAt u)]> ∅)).

(** A projection [{ path: 0, ... }]: the listed paths are left out. *)
Definition project_out (paths : list string) (doc : gmap string jsval)
    : gmap string jsval :=
  foldr delete doc paths.

(** [User.findOne({ email }, projection)] *)
Definition User_findOne_projected (e : string) (excluded : list string)
    : M (option (gmap string jsval)) :=
  u <- User_findOne e ;;
  ret (option_map (fun u => project_out excluded (User_toObject u)) u).

(** ** The packages server.js calls *)

(** bcryptjs.  [bcrypt_hash s rounds salt] is [bcrypt.hash(s, rounds)] when
    the generated random salt is [salt]; [bcrypt_compare s h] is
    [bcrypt.compare(s, h)].  A hash is never the empty string, and a password
    compares equal to each of its own hashes. *)
Class Bcrypt : Type := {
  bcrypt_hash : string -> Z -> string -> string;
  bcrypt_compare : string -> string -> bool;
  bcrypt_hash_nonempty : forall s rounds salt, bcrypt_hash s rounds salt <> "";
  bcrypt_compare_hash :
    forall s rounds salt, bcrypt_compare s (bcrypt_hash s rounds salt) = true
}.

(** The payload of a session token: [{ email, iat, exp }], times in seconds. *)
Record Claims : Type := mkClaims {
  jwt_email : string;
  iat : Z;
  exp : Z
}.

(** The base64url alphabet of a token segment. *)
Definition is_b64url_char (c : ascii) : bool :=
  let n := nat_of_ascii c in
  ((Nat.leb 65 n && Nat.leb n 90) || (Nat.leb 97 n && Nat.leb n 122)
   || (Nat.leb 48 n && Nat.leb n 57) || Nat.eqb n 45 || Nat.eqb n 95)%bool.

(** The code units a token is made of. *)
Definition is_b64url_char_or_dot (c : ascii) : bool :=
  (is_b64url_char c || Ascii.eqb c ".")%bool.

(** A non-empty base64url string. *)
Definition b64url (s : string) : bool :=
  (negb (String.eqb s "") && JsString.all_chars is_b64url_char s)%bool.

(** The primitives under jsonwebtoken: the base64url JSON codec of a payload
    and the keyed signature [hmac_sha256 secret input], itself base64url. *)
Class JwtPrims : Type := {
  encode_claims : Claims -> string;
  decode_claims : string -> option Claims;
  hmac_sha256 : string -> string -> string;
  decode_encode_claims : forall c, decode_claims (encode_claims c) = Some c;
  encode_claims_b64url : forall c, b64url (encode_claims c) = true;
  hmac_sha256_b64url : forall k m, b64url (hmac_sha256 k m) = true
}.

(** The first segment of every token: base64url of
    [{"alg":"HS256","typ":"JWT"}]. *)
Definition jwt_header : string := "eyJhbGciOiJIUzI1NiIsInR5cCI6IkpXVCJ9".

(** ['7d'] in seconds. *)
Definition seven_days : Z := 7 * 24 * 60 * 60.

Inductive verify_result : Type :=
  | Verified (decoded : Claims)
  | InvalidToken.

Section Jwt.
Context {prims : JwtPrims}.

(** Modelled from the spec: [jwt.sign] of the jsonwebtoken package, which is
    not part of the repository's sources.  `issue(identityClaim) -> token`
    produces a signed token embedding the identity and an expiration
    [expiresIn] seconds from issuance; the token is
    [header.payload.signature], signed with [secret].  [now] is the clock in
    milliseconds. *)
Definition jwt_sign (identity : string) (secret : string) (expiresIn : Z)
    (now : Z) : string :=
  let issued := now / 1000 in
  let payload :=
    encode_claims (mkClaims identity issued (issued + expiresIn)) in
  let input := jwt_header +:+ "." +:+ payload in
  input +:+ "." +:+ hmac_sha256 secret input.

(** Modelled from the spec: [jwt.verify] of the jsonwebtoken package, which
    is not part of the repository's sources.  `verify(token) ->
    identityClaim | fails` fails with [InvalidToken] if the token is not
    three base64url segments under the expected header, if the signature
    does not match [secret], if the payload is malformed, or if the token is
    expired (the clock has reached [exp]). *)
Definition jwt_verify (token : string) (secret : string) (now : Z)
    : verify_result :=
  match JsString.split "." token with
  | [h; p; s] =>
      if (b64url h && b64url p && b64url s && String.eqb h jwt_header)%bool
      then
        if String.eqb s (hmac_sha256 secret (h +:+ "." +:+ p)) then
          match decode_claims p with
          | Some decoded =>
              if now / 1000 <? exp decoded then Verified decoded
              else InvalidToken
          | None => InvalidToken
          end
        else InvalidToken
      else InvalidToken
  | _ => InvalidToken
  end.

End Jwt.

(** ** server.js *)

(** The body of [POST /api/login] after [const { email, password } =
    req.body || {}]. *)
Record LoginBody : Type := mkLoginBody {
  body_email : jsval;
  body_password : jsval
}.

(** The body of [POST /api/reading] after [const { bookKey, title, coverId,
    authors } = req.body], each field with the type ReadingListSchema gives
    it; [None] is a missing field. *)
Record ReadingBody : Type := mkReadingBody {
  body_bookKey : option string;
  body_title : option string;
  body_coverId : option Z;
  body_authors : option (list string)
}.

(** What the [auth] middleware does with a request: answer it, or call
    [next()] with [req.user] set. *)
Inductive guard : Type :=
  | Rejected (r : Response)
  | Next (user : Claims).

Section Server.
Context {bc : Bcrypt} {prims : JwtPrims}.

(** [process.env.JWT_SECRET] *)
Variable env_JWT_SECRET : option string.

(** [process.env.JWT_SECRET || 'devsecret'] *)
Definition JWT_SECRET : string :=
  match env_JWT_SECRET with
  | Some s => if String.eqb s "" then "devsecret" else s
  | None => "devsecret"
  end.

(** [bcrypt.hash(password, rounds)] on a body value: bcryptjs rejects a
    value that is not a string. *)
Definition js_bcrypt_hash (password : jsval) (rounds : Z) (salt : string)
    : M string :=
  match password with
  | JStr s => ret (bcrypt_hash s rounds salt)
  | _ => throw IllegalArguments
  end.

(** [bcrypt.compare(password, hash)] on a body value. *)
Definition js_bcrypt_compare (password : jsval) (h : string) : M bool :=
  match password with
  | JStr s => ret (bcrypt_compare s h)
  | _ => throw IllegalArguments
  end.

(** [res.json({ token, email: user.email })] with a fresh token. *)
Definition respond_token (user : User) (now : Z) : M Response :=
  let token := jwt_sign (email user) JWT_SECRET seven_days now in
  ret (json_response (BToken token (email user))).

(** The [try] block of [app.post('/api/login')].  [salt] is the randomness
    [bcrypt.hash] draws and [now] the clock.  A truthy [email] that is not a
    string has no [endsWith] method, so the call throws. *)
Definition login_handler (b : LoginBody) (salt : string) (now : Z)
    : M Response :=
  let password := body_password b in
  if (negb (truthy (body_email b)) || negb (truthy password))%bool then
    ret (error_response 400 "Missing email or password")
  else
    match body_email b with
    | JStr e =>
        if negb (JsString.endsWith e "@gmail.com") then
          ret (error_response 400 "Only Gmail accounts are allowed")
        else
          found <- User_findOne e ;;
          match found with
          | None =>
              h <- js_bcrypt_hash password 10 salt ;;
              user <- User_create e h now ;;
              respond_token user now
          | Some user =>
              valid <- js_bcrypt_compare password (passwordHash user) ;;
              if negb valid then
                ret (error_response 401 "Incorrect password")
              else respond_token user now
          end
    | _ => throw (TypeError "email.endsWith is not a function")
    end.

(** [app.post('/api/login', ...)] *)
Definition api_login (b : LoginBody) (salt : string) (now : Z)
    : DB -> Response * DB :=
  try_catch (login_handler b salt now) "Operation failed".

(** [function auth(req, res, next)], on [req.headers.authorization]. *)
Definition auth (authorization : option string) (now : Z) : guard :=
  match authorization with
  | None => Rejected (error_response 401 "No token")
  | Some h =>
      if String.eqb h "" then Rejected (error_response 401 "No token")
      else
        let token :=
          JsString.trim (default "" (JsString.split " " h !! 1%nat)) in
        match jwt_verify token JWT_SECRET now with
        | Verified decoded => Next decoded
        | InvalidToken => Rejected (error_response 401 "Invalid token")
        end
  end.

(** A route registered as [app.METHOD(path, auth, handler)]: the handler
    runs only if [auth] calls [next()]. *)
Definition guarded (authorization : option string) (now : Z)
    (handler : Claims -> DB -> Response * DB) : DB -> Response * DB :=
  fun db =>
    match auth authorization now with
    | Rejected r => (r, db)
    | Next user => handler user db
    end.

(** The [try] block of [app.post('/api/reading')]. *)
Definition reading_post_handler (user : Claims) (b : ReadingBody) (now : Z)
    : M Response :=
  match body_bookKey b with
  | None => ret (error_response 400 "Book key is required")
  | Some k =>
      if String.eqb k "" then ret (error_response 400 "Book key is required")
      else
        existing <- ReadingList_findOne (jwt_email user) k ;;
        match existing with
        | Some _ => ret (error_response 409 "Already in reading list")
        | None =>
            item <- ReadingList_create (jwt_email user) k (body_title b)
                      (body_coverId b) (body_authors b) now ;;
            ret (json_response (BItem item))
        end
  end.

(** [app.post('/api/reading', auth, ...)] *)
Definition api_reading_post (authorization : option string) (b : ReadingBody)
    (now : Z) : DB -> Response * DB :=
  guarded authorization now
    (fun user => try_catch (reading_post_handler user b now)
                   "Failed to add to reading list").

(** The [try] block of [app.get('/api/me')]: [res.json(user)] sends [null]
    when no document matches. *)
Definition me_handler (user : Claims) : M Response :=
  doc <- User_findOne_projected (jwt_email user) ["passwordHash"] ;;
  ret (json_response match doc with
                     | Some d => BUser d
                     | None => BNull
                     end).

(** [app.get('/api/me', auth, ...)] *)
Definition api_me (authorization : option string) (now : Z)
    : DB -> Response * DB :=
  guarded authorization now
    (fun user => try_catch (me_handler user) "Failed to fetch profile").

End Server.

(** ** The remaining collection, routes and the seeding script *)

(** A document of the [Review] collection (ReviewSchema); [rating] is not a
    required path. *)
Record Review : Type := mkReview {
  review_bookKey : string;
  review_userEmail : string;
  rating : option Z;
  text : string;
  review_createdAt : Z
}.

(** All three collections. *)
Record Store : Type := mkStore {
  base : DB;
  reviews : list Review
}.

(** What the remaining routes send: one of the bodies above, a review, a
    list of documents, or [{ success: true }]. *)
Inductive Payload : Type :=
  | Of (b : Body)
  | PReview (r : Review)
  | PReviews (l : list Review)
  | PItems (l : list ReadingItem)
  | PSuccess.

Record Reply : Type := mkReply {
  reply_status : Z;
  reply_payload : Payload
}.

Definition reply_of (r : Response) : Reply :=
  mkReply (status r) (Of (body r)).

(** [res.status(code).json({ error: msg })] *)
Definition error_reply (code : Z) (msg : string) : Reply :=
  reply_of (error_response code msg).

(** [res.json(p)] *)
Definition json_reply (p : Payload) : Reply := mkReply 200 p.

(** The handler monad over any state; [M] is [ST DB]. *)
Definition ST (S A : Type) : Type := S -> outcome A * S.

Definition st_ret {S A} (a : A) : ST S A := fun s => (Ret a, s).
Definition st_throw {S A} (e : exn) : ST S A := fun s => (Throw e, s).
Definition st_bind {S A B} (m : ST S A) (k : A -> ST S B) : ST S B :=
  fun s => match m s with
           | (Ret a, s') => k a s'
           | (Throw e, s') => (Throw e, s')
           end.

Notation "x <~ m ;; k" := (st_bind m (fun x => k))
  (at level 100, m at next level, right associativity).

(** [try { body } catch (err) { res.status(500).json(...) }] *)
Definition st_catch {S R} (m : ST S R) (on_error : R) : S -> R * S :=
  fun s => match m s with
           | (Ret r, s') => (r, s')
           | (Throw _, s') => (on_error, s')
           end.

(** An operation on the [User] and [ReadingList] collections, run in the
    whole store. *)
Definition on_base {A} (m : M A) : ST Store A :=
  fun s => match m (base s) with
           | (o, d) => (o, mkStore d (reviews s))
           end.

(** [.sort('-' + key)]: greatest key first; documents with equal keys keep
    their order in the collection. *)
Fixpoint insert_desc {A} (key : A -> Z) (x : A) (l : list A) : list A :=
  match l with
  | [] => [x]
  | y :: l' => if key y <=? key x then x :: l else y :: insert_desc key x l'
  end.

Definition sort_desc {A} (key : A -> Z) (l : list A) : list A :=
  foldr (insert_desc key) [] l.

(** The filter [{ bookKey: k }]. *)
Definition has_bookKey (k : string) (r : Review) : bool :=
  String.eqb (review_bookKey r) k.

(** [Review.find({ bookKey }).sort('-createdAt').limit(50)] *)
Definition Review_find_recent (k : string) : ST Store (list Review) :=
  fun s =>
    (Ret (take 50 (sort_desc review_createdAt
                     (List.filter (has_bookKey k) (reviews s)))), s).

(** The validators of ReviewSchema: three required paths, and [rating]
    between 1 and 5 when it is set. *)
Definition Review_validate (r : Review) : option exn :=
  if String.eqb (review_bookKey r) "" then Some (ValidationError "bookKey")
  else if String.eqb (review_userEmail r) ""
       then Some (ValidationError "userEmail")
  else if String.eqb (text r) "" then Some (ValidationError "text")
  else match rating r with
       | Some n => if ((1 <=? n) && (n <=? 5))%bool then None
                   else Some (ValidationError "rating")
       | None => None
       end.

(** [Review.create({ bookKey, userEmail, rating, text })] *)
Definition Review_create (k e : string) (r : option Z) (t : string) (now : Z)
    : ST Store Review :=
  fun s =>
    let doc := mkReview k e r t now in
    match Review_validate doc with
    | Some err => (Throw err, s)
    | None => (Ret doc, mkStore (base s) (reviews s ++ [doc]))
    end.

(** The error of the first document that fails its validators. *)
Fixpoint first_error {A} (validate : A -> option exn) (docs : list A)
    : option exn :=
  match docs with
  | [] => None
  | d :: rest =>
      match validate d with
      | Some err => Some err
      | None => first_error validate rest
      end
  end.

(** [Review.insertMany(docs)]: every document is validated first and
    nothing is inserted unless all pass; [createdAt] defaults to the
    clock. *)
Definition Review_insertMany (docs : list (Z -> Review)) (now : Z)
    : ST Store unit :=
  fun s =>
    let built := map (fun d => d now) docs in
    match first_error Review_validate built with
    | Some err => (Throw err, s)
    | None => (Ret tt, mkStore (base s) (reviews s ++ built))
    end.

(** The filter [{ userEmail: e }]. *)
Definition has_userEmail (e : string) (i : ReadingItem) : bool :=
  String.eqb (userEmail i) e.

(** [ReadingList.find({ userEmail }).sort('-createdAt')] *)
Definition ReadingList_find_recent (e : string) : M (list ReadingItem) :=
  fun db =>
    (Ret (sort_desc item_createdAt
            (List.filter (has_userEmail e) (readingList db))), db).

(** The list without its first element that satisfies [f]. *)
Fixpoint remove_first {A} (f : A -> bool) (l : list A) : list A :=
  match l with
  | [] => []
  | x :: l' => if f x then l' else x :: remove_first f l'
  end.

(** [ReadingList.deleteOne({ userEmail, bookKey })]: the first matching
    document goes, if there is one. *)
Definition ReadingList_deleteOne (e k : string) : M unit :=
  fun db =>
    (Ret tt, mkDB (users db) (remove_first (has_entry e k) (readingList db))).

(** The validators of ReadingListSchema. *)
Definition ReadingItem_validate (i : ReadingItem) : option exn :=
  if String.eqb (userEmail i) "" then Some (ValidationError "userEmail")
  else if String.eqb (bookKey i) "" then Some (ValidationError "bookKey")
  else None.

(** [ReadingList.insertMany(docs)] *)
Definition ReadingList_insertMany (docs : list (Z -> ReadingItem)) (now : Z)
    : M unit :=
  fun db =>
    let built := map (fun d => d now) docs in
    match first_error ReadingItem_validate built with
    | Some err => (Throw err, db)
    | None => (Ret tt, mkDB (users db) (readingList db ++ built))
    end.

(** [Model.deleteMany({})] on each collection. *)
Definition User_deleteMany : M unit :=
  fun db => (Ret tt, mkDB [] (readingList db)).

Definition Review_deleteMany : ST Store unit :=
  fun s => (Ret tt, mkStore (base s) []).

Definition ReadingList_deleteMany : M unit :=
  fun db => (Ret tt, mkDB (users db) []).

(** The body of [POST /api/reviews/:bookKey] after [const { rating, text } =
    req.body], each field with the type ReviewSchema gives it. *)
Record ReviewBody : Type := mkReviewBody {
  body_rating : option Z;
  body_text : option string
}.

(** [rating || 0] *)
Definition rating_or_zero (r : option Z) : Z :=
  match r with
  | Some n => if n =? 0 then 0 else n
  | None => 0
  end.

(** [GET /api/books/search]: the catalogue is a function from the request
    parameters to the document it answers with, or nothing when the request
    fails.  The query string is the simple one: each key once, with a string
    value. *)
Section Search.
Variable Data : Type.
Variable openlibrary : gmap string string -> option Data.

Inductive SearchReply : Type :=
  | SearchData (data : Data)                    (* res.json(r.data) *)
  | SearchFailed (code : Z) (error : string).

(** [{ ...req.query, q }] with [q = req.query.q || 'bestsellers'] *)
Definition search_params (query : gmap string string) : gmap string string :=
  let q := match query !! "q" with
           | Some v => if String.eqb v "" then "bestsellers" else v
           | None => "bestsellers"
           end in
  <["q" := q]> query.

(** [app.get('/api/books/search', ...)] *)
Definition api_books_search (query : gmap string string) : SearchReply :=
  match openlibrary (search_params query) with
  | Some data => SearchData data
  | None => SearchFailed 500 "Failed to fetch books"
  end.

End Search.
Arguments SearchData {Data} data.
Arguments SearchFailed {Data} code error.

Section Routes.
Context {bc : Bcrypt} {prims : JwtPrims}.
Variable env_JWT_SECRET : option string.

(** A route [app.METHOD(path, auth, handler)] over any state. *)
Definition guarded_route {S} (authorization : option string) (now : Z)
    (handler : Claims -> S -> Reply * S) : S -> Reply * S :=
  fun s =>
    match auth env_JWT_SECRET authorization now with
    | Rejected r => (reply_of r, s)
    | Next user => handler user s
    end.

(** [app.get('/api/reviews/:bookKey', ...)]: not guarded. *)
Definition api_reviews_get (k : string) : Store -> Reply * Store :=
  st_catch (found <~ Review_find_recent k ;;
            st_ret (json_reply (PReviews found)))
           (error_reply 500 "Failed to fetch reviews").

(** The [try] block of [app.post('/api/reviews/:bookKey')]. *)
Definition review_post_handler (user : Claims) (k : string) (b : ReviewBody)
    (now : Z) : ST Store Reply :=
  match body_text b with
  | None => st_ret (error_reply 400 "Review text is required")
  | Some t =>
      if String.eqb t "" then
        st_ret (error_reply 400 "Review text is required")
      else
        review <~ Review_create k (jwt_email user)
                    (Some (rating_or_zero (body_rating b))) t now ;;
        st_ret (json_reply (PReview review))
  end.

(** [app.post('/api/reviews/:bookKey', auth, ...)] *)
Definition api_reviews_post (authorization : option string) (k : string)
    (b : ReviewBody) (now : Z) : Store -> Reply * Store :=
  guarded_route authorization now
    (fun user => st_catch (review_post_handler user k b now)
                   (error_reply 500 "Failed to save review")).

(** [app.get('/api/reading', auth, ...)] *)
Definition api_reading_get (authorization : option string) (now : Z)
    : DB -> Reply * DB :=
  guarded_route authorization now
    (fun user =>
       st_catch (items <- ReadingList_find_recent (jwt_email user) ;;
                 ret (json_reply (PItems items)))
                (error_reply 500 "Failed to fetch reading list")).

(** [app.delete('/api/reading/:bookKey', auth, ...)] *)
Definition api_reading_delete (authorization : option string) (k : string)
    (now : Z) : DB -> Reply * DB :=
  guarded_route authorization now
    (fun user =>
       st_catch (_ <- ReadingList_deleteOne (jwt_email user) k ;;
                 ret (json_reply PSuccess))
                (error_reply 500 "Failed to remove from reading list")).

End Routes.

(** ** The seeding script *)

Definition testUsers : list (string * string) :=
  [("test1@gmail.com", "test123"); ("test2@gmail.com", "test123")].

Definition testReviews : list (Z -> Review) :=
  [mkReview "/works/OL45804W" "test1@gmail.com" (Some 5)
     "Amazing book! Loved the characters.";
   mkReview "/works/OL45804W" "test2@gmail.com" (Some 4)
     "Great story and well written."].

Definition testReadingList : list (Z -> ReadingItem) :=
  [mkReadingItem "test1@gmail.com" "/works/OL45804W" (Some "The Hobbit")
     (Some 12345) ["J.R.R. Tolkien"]].

Section Seed.
Context {bc : Bcrypt}.

(** The randomness and the clock of one run: [rand i] is the salt of the
    [i]-th hash, [clock i] the time of the [i]-th write. *)
Variable rand : nat -> string.
Variable clock : nat -> Z.

(** [for (const userData of testUsers) { ... User.create(...) }] *)
Fixpoint create_users (us : list (string * string)) (i : nat)
    : ST Store unit :=
  match us with
  | [] => st_ret tt
  | (e, p) :: rest =>
      _ <~ on_base (User_create e (bcrypt_hash p 10 (rand i)) (clock i)) ;;
      create_users rest (S i)
  end.

(** The [try] block of [seedDatabase], between [mongoose.connect] and
    [mongoose.disconnect], which are taken to succeed. *)
Definition seed_steps : ST Store unit :=
  _ <~ on_base User_deleteMany ;;
  _ <~ Review_deleteMany ;;
  _ <~ on_base ReadingList_deleteMany ;;
  _ <~ create_users testUsers 0 ;;
  _ <~ Review_insertMany testReviews (clock 2) ;;
  on_base (ReadingList_insertMany testReadingList (clock 3)).

(** [seedDatabase()]: [true] when it reaches "Database seeded successfully",
    [false] when it logs "Error seeding database". *)
Definition seedDatabase : Store -> bool * Store :=
  st_catch (_ <~ seed_steps ;; st_ret true) false.

End Seed.

(** ** Facts about the string operations *)

Module JsStringFacts.
Import JsString.

(** The code units other than [sep]. *)
Definition not_char (sep : ascii) (c : ascii) : bool := negb (Ascii.eqb c sep).

(** The pieces of [split] joined back with the separator. *)
Fixpoint join (sep : ascii) (pieces : list string) : string :=
  match pieces with
  | [] => EmptyString
  | [piece] => piece
  | piece :: rest => piece +:+ String sep (join sep rest)
  end.

Lemma all_chars_app p s t :
  all_chars p (s +:+ t) = (all_chars p s && all_chars p t)%bool.
Proof.
  induction s as [|c s IH]; simpl; [reflexivity|].
  rewrite IH. apply andb_assoc.
Qed.

Lemma all_chars_impl (p q : ascii -> bool) s :
  (forall c, p c = true -> q c = true) ->
  all_chars p s = true -> all_chars q s = true.
Proof.
  intros Hpq. induction s as [|c s IH]; simpl; [reflexivity|].
  intros [Hc Hs]%andb_true_iff.
  apply andb_true_iff. split; [apply Hpq, Hc | apply IH, Hs].
Qed.

Lemma split_not_nil sep s : split sep s <> [].
Proof.
  destruct s as [|c s]; simpl; [discriminate|].
  destruct (Ascii.eqb c sep); [discriminate|].
  destruct (split sep s); discriminate.
Qed.

Lemma split_no_sep sep w :
  all_chars (not_char sep) w = true -> split sep w = [w].
Proof.
  induction w as [|c w IH]; simpl; [reflexivity|].
  unfold not_char at 1.
  intros [Hc Hw]%andb_true_iff.
  apply negb_true_iff in Hc. rewrite Hc, (IH Hw). reflexivity.
Qed.

Lemma split_app_sep sep w t :
  all_chars (not_char sep) w = true ->
  split sep (w +:+ String sep t) = w :: split sep t.
Proof.
  induction w as [|c w IH]; simpl.
  - intros _. rewrite Ascii.eqb_refl. reflexivity.
  - unfold not_char at 1.
    intros [Hc Hw]%andb_true_iff.
    apply negb_true_iff in Hc. rewrite Hc, (IH Hw). reflexivity.
Qed.

Lemma join_split sep s : join sep (split sep s) = s.
Proof.
  induction s as [|c s IH]; simpl; [reflexivity|].
  destruct (Ascii.eqb_spec c sep) as [->|Hne].
  - pose proof (split_not_nil sep s) as Hnil.
    destruct (split sep s) as [|x xs]; [congruence|].
    simpl in *. rewrite IH. reflexivity.
  - pose proof (split_not_nil sep s) as Hnil.
    destruct (split sep s) as [|x xs]; [congruence|].
    destruct xs as [|y ys]; simpl in *; rewrite <- IH; reflexivity.
Qed.

Lemma trimStart_id s :
  all_chars (fun c => negb (is_space c)) s = true -> trimStart s = s.
Proof.
  destruct s as [|c s]; simpl; [reflexivity|].
  intros [Hc _]%andb_true_iff. apply negb_true_iff in Hc.
  rewrite Hc. reflexivity.
Qed.

Lemma trimEnd_id s :
  all_chars (fun c => negb (is_space c)) s = true -> trimEnd s = s.
Proof.
  induction s as [|c s IH]; simpl; [reflexivity|].
  intros [Hc Hs]%andb_true_iff. apply negb_true_iff in Hc.
  rewrite (IH Hs), Hc. destruct s; reflexivity.
Qed.

Lemma trim_id s :
  all_chars (fun c => negb (is_space c)) s = true -> trim s = s.
Proof.
  intros Hs. unfold trim. rewrite (trimStart_id s Hs). apply trimEnd_id, Hs.
Qed.

Lemma string_eqb_false_iff (s t : string) : String.eqb s t = false <-> s <> t.
Proof.
  destruct (String.eqb_spec s t); split; congruence.
Qed.

Lemma string_length_app (s t : string) :
  String.length (s +:+ t) = (String.length s + String.length t)%nat.
Proof.
  induction s as [|c s IH]; simpl; [reflexivity|]. rewrite IH. reflexivity.
Qed.

(** A string with a non-empty suffix is not empty. *)
Lemma endsWith_nonempty s suffix :
  suffix <> "" -> endsWith s suffix = true -> s <> "".
Proof.
  intros Hsuf Hends ->. unfold endsWith in Hends. simpl in Hends.
  destruct suffix as [|c suffix]; [congruence|]. simpl in Hends. discriminate.
Qed.

End JsStringFacts.

(** ** An executable instance of the two packages

    A stand-in for bcryptjs and for the primitives of jsonwebtoken that
    satisfies both interfaces, so that the handlers above can be run.  The
    payload codec writes each field in binary; nothing here is
    cryptography. *)

Module Toy.
Import JsString JsStringFacts.

Definition bit_char (b : bool) : ascii := if b then "1"%char else "0"%char.

Definition char_bit (c : ascii) : option bool :=
  if Ascii.eqb c "1" then Some true
  else if Ascii.eqb c "0" then Some false
  else None.

(** Each code unit as eight binary digits. *)
Fixpoint encode_string (s : string) : string :=
  match s with
  | EmptyString => EmptyString
  | String (Ascii b0 b1 b2 b3 b4 b5 b6 b7) s' =>
      String (bit_char b0) (String (bit_char b1) (String (bit_char b2)
      (String (bit_char b3) (String (bit_char b4) (String (bit_char b5)
      (String (bit_char b6) (String (bit_char b7) (encode_string s'))))))))
  end.

Fixpoint decode_string (s : string) : option string :=
  match s with
  | EmptyString => Some EmptyString
  | String c0 (String c1 (String c2 (String c3
      (String c4 (String c5 (String c6 (String c7 s'))))))) =>
      match char_bit c0, char_bit c1, char_bit c2, char_bit c3,
            char_bit c4, char_bit c5, char_bit c6, char_bit c7,
            decode_string s' with
      | Some b0, Some b1, Some b2, Some b3,
        Some b4, Some b5, Some b6, Some b7, Some r =>
          Some (String (Ascii b0 b1 b2 b3 b4 b5 b6 b7) r)
      | _, _, _, _, _, _, _, _, _ => None
      end
  | _ => None
  end.

(** A positive number, least significant digit first, without its leading
    one. *)
Fixpoint encode_pos (p : positive) : string :=
  match p with
  | xH => EmptyString
  | xO q => String "0" (encode_pos q)
  | xI q => String "1" (encode_pos q)
  end.

Fixpoint decode_pos (s : string) : option positive :=
  match s with
  | EmptyString => Some xH
  | String c s' =>
      match char_bit c, decode_pos s' with
      | Some true, Some q => Some (xI q)
      | Some false, Some q => Some (xO q)
      | _, _ => None
      end
  end.

Definition encode_Z (z : Z) : string :=
  match z with
  | Z0 => "z"
  | Zpos p => String "p" (encode_pos p)
  | Zneg p => String "n" (encode_pos p)
  end.

Definition decode_Z (s : string) : option Z :=
  match s with
  | EmptyString => None
  | String c s' =>
      if Ascii.eqb c "z" then
        match s' with EmptyString => Some Z0 | _ => None end
      else if Ascii.eqb c "p" then option_map Zpos (decode_pos s')
      else if Ascii.eqb c "n" then option_map Zneg (decode_pos s')
      else None
  end.

Definition encode (c : Claims) : string :=
  encode_string (jwt_email c) +:+ String "_" (encode_Z (iat c)
    +:+ String "_" (encode_Z (exp c))).

Definition decode (s : string) : option Claims :=
  match split "_" s with
  | [a; b; c] =>
      match decode_string a, decode_Z b, decode_Z c with
      | Some e, Some i, Some x => Some (mkClaims e i x)
      | _, _, _ => None
      end
  | _ => None
  end.

Definition mac (secret input : string) : string :=
  "mac" +:+ encode_string secret +:+ String "_" (encode_string input).

Definition hash (s : string) (rounds : Z) (salt : string) : string :=
  encode_string s +:+ String "$" salt.

Definition compare (s h : string) : bool :=
  String.prefix (encode_string s +:+ "$") h.

(** The digits and the field marks of the codec. *)
Definition is_codec_char (c : ascii) : bool :=
  (Ascii.eqb c "0" || Ascii.eqb c "1" || Ascii.eqb c "z" || Ascii.eqb c "p"
   || Ascii.eqb c "n" || Ascii.eqb c "m" || Ascii.eqb c "a"
   || Ascii.eqb c "c")%bool.

Lemma decode_encode_string s : decode_string (encode_string s) = Some s.
Proof.
  induction s as [|c s IH]; [reflexivity|].
  destruct c as [b0 b1 b2 b3 b4 b5 b6 b7].
  cbn [encode_string decode_string]. rewrite IH.
  destruct b0, b1, b2, b3, b4, b5, b6, b7; reflexivity.
Qed.

Lemma decode_encode_pos p : decode_pos (encode_pos p) = Some p.
Proof.
  induction p as [q IH|q IH|]; simpl; [| |reflexivity];
    rewrite IH; reflexivity.
Qed.

Lemma decode_encode_Z z : decode_Z (encode_Z z) = Some z.
Proof.
  destruct z as [|p|p]; simpl; [reflexivity| |];
    rewrite decode_encode_pos; reflexivity.
Qed.

Lemma encode_string_codec s : all_chars is_codec_char (encode_string s) = true.
Proof.
  induction s as [|c s IH]; [reflexivity|].
  destruct c as [b0 b1 b2 b3 b4 b5 b6 b7].
  cbn [encode_string all_chars]. rewrite IH.
  destruct b0, b1, b2, b3, b4, b5, b6, b7; reflexivity.
Qed.

Lemma encode_pos_codec p : all_chars is_codec_char (encode_pos p) = true.
Proof.
  induction p as [q IH|q IH|]; simpl; [| |reflexivity]; exact IH.
Qed.

Lemma encode_Z_codec z : all_chars is_codec_char (encode_Z z) = true.
Proof.
  destruct z as [|p|p]; simpl; [reflexivity| |]; apply encode_pos_codec.
Qed.

Lemma codec_char_not_mark c : is_codec_char c = true -> not_char "_" c = true.
Proof.
  destruct c as [[] [] [] [] [] [] [] []]; vm_compute; congruence.
Qed.

Lemma codec_char_b64url c : is_codec_char c = true -> is_b64url_char c = true.
Proof.
  destruct c as [[] [] [] [] [] [] [] []]; vm_compute; congruence.
Qed.

Lemma decode_encode c : decode (encode c) = Some c.
Proof.
  destruct c as [e i x]. unfold decode, encode. simpl.
  rewrite split_app_sep
    by (eapply all_chars_impl; [apply codec_char_not_mark|];
        apply encode_string_codec).
  rewrite split_app_sep
    by (eapply all_chars_impl; [apply codec_char_not_mark|];
        apply encode_Z_codec).
  rewrite split_no_sep
    by (eapply all_chars_impl; [apply codec_char_not_mark|];
        apply encode_Z_codec).
  rewrite decode_encode_string, !decode_encode_Z. reflexivity.
Qed.

Lemma app_nonempty_r (s t : string) : t <> "" -> s +:+ t <> "".
Proof.
  intros Ht. destruct s; simpl; [exact Ht | discriminate].
Qed.

Lemma encode_b64url c : b64url (encode c) = true.
Proof.
  unfold b64url, encode. apply andb_true_iff. split.
  - apply negb_true_iff, string_eqb_false_iff, app_nonempty_r. discriminate.
  - rewrite all_chars_app. simpl. rewrite all_chars_app. simpl.
    rewrite !andb_true_iff. repeat split.
    + eapply all_chars_impl; [apply codec_char_b64url|].
      apply encode_string_codec.
    + eapply all_chars_impl; [apply codec_char_b64url|].
      apply encode_Z_codec.
    + eapply all_chars_impl; [apply codec_char_b64url|].
      apply encode_Z_codec.
Qed.

Lemma mac_b64url k m : b64url (mac k m) = true.
Proof.
  unfold b64url, mac. apply andb_true_iff. split; [reflexivity|].
  rewrite !all_chars_app. simpl.
  rewrite !andb_true_iff. repeat split.
  - eapply all_chars_impl; [apply codec_char_b64url|].
    apply encode_string_codec.
  - eapply all_chars_impl; [apply codec_char_b64url|].
    apply encode_string_codec.
Qed.

Lemma hash_nonempty s rounds salt : hash s rounds salt <> "".
Proof.
  unfold hash. apply app_nonempty_r. discriminate.
Qed.

Lemma prefix_app (s t u : string) : String.prefix (s +:+ t) (s +:+ t +:+ u) = true.
Proof.
  induction s as [|c s IH]; simpl.
  - induction t as [|c t IHt]; simpl; [destruct u; reflexivity|].
    destruct (ascii_dec c c); [exact IHt | congruence].
  - destruct (ascii_dec c c); [exact IH | congruence].
Qed.

Lemma compare_hash s rounds salt : compare s (hash s rounds salt) = true.
Proof.
  unfold compare, hash.
  change (String "$" salt) with ("$" +:+ salt). apply prefix_app.
Qed.

#[export] Instance bcrypt : Bcrypt :=
  {| bcrypt_hash := hash;
     bcrypt_compare := compare;
     bcrypt_hash_nonempty := hash_nonempty;
     bcrypt_compare_hash := compare_hash |}.

#[export] Instance jwt_prims : JwtPrims :=
  {| encode_claims := encode;
     decode_claims := decode;
     hmac_sha256 := mac;
     decode_encode_claims := decode_encode;
     encode_claims_b64url := encode_b64url;
     hmac_sha256_b64url := mac_b64url |}.

End Toy.

(** ** The login-or-register endpoint *)

Section LoginProperties.
Context {bc : Bcrypt} {prims : JwtPrims}.
Variable env_JWT_SECRET : option string.

Import JsString JsStringFacts.


Lemma find_none_existsb {A} (f : A -> bool) (l : list A) :
  List.find f l = None -> existsb f l = false.
Proof.
  induction l as [|x l IH]; simpl; [reflexivity|].
  destruct (f x); [discriminate | exact IH].
Qed.

Lemma find_none_filter {A} (f : A -> bool) (l : list A) :
  List.find f l = None -> List.filter f l = [].
Proof.
  induction l as [|x l IH]; simpl; [reflexivity|].
  destruct (f x); [discriminate | exact IH].
Qed.

Lemma find_some_holds {A} (f : A -> bool) (l : list A) (x : A) :
  List.find f l = Some x -> f x = true.
Proof.
  induction l as [|y l IH]; simpl; [discriminate|].
  destruct (f y) eqn:Hy; [intros [= <-]; exact Hy | exact IH].
Qed.

Lemma gmail_truthy e : endsWith e "@gmail.com" = true -> truthy (JStr e) = true.
Proof.
  intros He. simpl. apply negb_true_iff, string_eqb_false_iff.
  apply (endsWith_nonempty e "@gmail.com"); [discriminate | exact He].
Qed.

Lemma string_truthy p : p <> "" -> truthy (JStr p) = true.
Proof.
  intros Hp. simpl. apply negb_true_iff, string_eqb_false_iff, Hp.
Qed.

Lemma find_app_none {A} (f : A -> bool) (l l' : list A) :
  List.find f l = None -> List.find f (l ++ l') = List.find f l'.
Proof.
  induction l as [|x l IH]; simpl; [reflexivity|].
  destruct (f x); [discriminate | exact IH].
Qed.

(** C1. A login whose email is a string that does not end in "@gmail.com",
    with both fields present, is answered 400 "Only Gmail accounts are
    allowed" whatever the password is, and the database is left as it was:
    no account is created. *)
Theorem login_rejects_other_domains (e : string) (password : jsval)
    (salt : string) (now : Z) (db : DB) :
  truthy (JStr e) = true ->
  truthy password = true ->
  endsWith e "@gmail.com" = false ->
  api_login env_JWT_SECRET (mkLoginBody (JStr e) password) salt now db
  = (error_response 400 "Only Gmail accounts are allowed", db).
Proof.
  intros He Hp Hsuffix.
  unfold api_login, try_catch, login_handler.
  cbn [body_email body_password].
  rewrite He, Hp, Hsuffix. reflexivity.
Qed.

(** A truthy email that is not a string reaches [email.endsWith], which
    throws; the handler answers 500 and creates nothing. *)
Lemma login_non_string_email (v password : jsval) (salt : string) (now : Z)
    (db : DB) :
  truthy v = true ->
  truthy password = true ->
  (forall e, v <> JStr e) ->
  api_login env_JWT_SECRET (mkLoginBody v password) salt now db
  = (error_response 500 "Operation failed", db).
Proof.
  intros Hv Hp Hns.
  unfold api_login, try_catch, login_handler.
  cbn [body_email body_password]. rewrite Hv, Hp.
  destruct v; try reflexivity. exfalso. eapply Hns. reflexivity.
Qed.

(** The registration path, run. *)
Lemma login_register_run (e p : string) (salt : string) (now : Z) (db : DB) :
  endsWith e "@gmail.com" = true ->
  p <> "" ->
  List.find (has_email e) (users db) = None ->
  api_login env_JWT_SECRET (mkLoginBody (JStr e) (JStr p)) salt now db
  = (json_response
       (BToken (jwt_sign e (JWT_SECRET env_JWT_SECRET) seven_days now) e),
     mkDB (users db ++ [mkUser e (bcrypt_hash p 10 salt) now])
          (readingList db)).
Proof.
  intros He Hp Hfind.
  pose proof (gmail_truthy e He) as Htruthy.
  unfold api_login, try_catch, login_handler.
  cbn [body_email body_password].
  rewrite Htruthy, (string_truthy p Hp), He.
  cbn [negb orb]. unfold bind at 1, User_findOne. rewrite Hfind.
  unfold bind, js_bcrypt_hash, ret, User_create.
  assert (String.eqb e "" = false) as ->
    by (simpl in Htruthy; apply negb_true_iff, Htruthy).
  assert (String.eqb (bcrypt_hash p 10 salt) "" = false) as ->
    by apply string_eqb_false_iff, bcrypt_hash_nonempty.
  rewrite (find_none_existsb _ _ Hfind). reflexivity.
Qed.

(** The authentication path, run. *)
Lemma login_authenticate_run (e p : string) (salt : string) (now : Z)
    (db : DB) (account : User) :
  endsWith e "@gmail.com" = true ->
  p <> "" ->
  List.find (has_email e) (users db) = Some account ->
  api_login env_JWT_SECRET (mkLoginBody (JStr e) (JStr p)) salt now db
  = if bcrypt_compare p (passwordHash account)
    then (json_response
       (BToken (jwt_sign e (JWT_SECRET env_JWT_SECRET) seven_days now) e), db)
    else (error_response 401 "Incorrect password", db).
Proof.
  intros He Hp Hfind.
  pose proof (find_some_holds _ _ _ Hfind) as Hmail.
  apply String.eqb_eq in Hmail.
  unfold api_login, try_catch, login_handler.
  cbn [body_email body_password].
  rewrite (gmail_truthy e He), (string_truthy p Hp), He.
  cbn [negb orb]. unfold bind at 1, User_findOne. rewrite Hfind.
  unfold bind, js_bcrypt_compare, ret, respond_token.
  destruct (bcrypt_compare p (passwordHash account));
    [rewrite Hmail|]; reflexivity.
Qed.

Lemma findOne_absent e db :
  fst (User_findOne e db) = Ret None ->
  List.find (has_email e) (users db) = None.
Proof. unfold User_findOne. cbn [fst]. congruence. Qed.

Lemma findOne_present e db account :
  fst (User_findOne e db) = Ret (Some account) ->
  List.find (has_email e) (users db) = Some account.
Proof. unfold User_findOne. cbn [fst]. congruence. Qed.

(** C2. A first login for an email ending in "@gmail.com" that has no
    account, with a non-empty string password, is answered 200 with a token
    for that email and the email itself; the [User] collection gains the one
    document [{ email, bcrypt.hash(password, 10), now }] and afterwards holds
    exactly one account for the email. *)
Theorem login_registers_unseen_email (e p : string) (salt : string) (now : Z)
    (db : DB) :
  endsWith e "@gmail.com" = true ->
  p <> "" ->
  fst (User_findOne e db) = Ret None ->
  let account := mkUser e (bcrypt_hash p 10 salt) now in
  api_login env_JWT_SECRET (mkLoginBody (JStr e) (JStr p)) salt now db
  = (json_response
       (BToken (jwt_sign e (JWT_SECRET env_JWT_SECRET) seven_days now) e),
     mkDB (users db ++ [account]) (readingList db))
  /\ List.filter (has_email e) (users db ++ [account]) = [account].
Proof.
  intros He Hp Habsent%findOne_absent account.
  split; [apply login_register_run; assumption|].
  rewrite List.filter_app, (find_none_filter _ _ Habsent). simpl.
  unfold has_email. simpl. rewrite String.eqb_refl. reflexivity.
Qed.

(** C3. A login for an email ending in "@gmail.com" whose account exists,
    with a non-empty password that [bcrypt.compare] accepts against the
    stored hash, is answered 200 with a token and the email, and the
    database afterwards is the database before: the same account is found,
    its [createdAt] and its [passwordHash] included. *)
Theorem login_existing_correct_password (e p : string) (salt : string)
    (now : Z) (db : DB) (account : User) :
  endsWith e "@gmail.com" = true ->
  p <> "" ->
  fst (User_findOne e db) = Ret (Some account) ->
  bcrypt_compare p (passwordHash account) = true ->
  api_login env_JWT_SECRET (mkLoginBody (JStr e) (JStr p)) salt now db
  = (json_response
       (BToken (jwt_sign e (JWT_SECRET env_JWT_SECRET) seven_days now) e), db)
  /\ fst (User_findOne e (snd (api_login env_JWT_SECRET (mkLoginBody (JStr e) (JStr p))
                                 salt now db)))
     = Ret (Some account).
Proof.
  intros He Hp Hpresent Hvalid.
  pose proof (login_authenticate_run e p salt now db account He Hp
                (findOne_present _ _ _ Hpresent)) as Hrun.
  rewrite Hvalid in Hrun. rewrite Hrun. split; [reflexivity | exact Hpresent].
Qed.

(** C4. A login for an email ending in "@gmail.com" whose account exists,
    with a non-empty string password that [bcrypt.compare] rejects against
    the stored hash, is answered 401 "Incorrect password" and the database
    is left exactly as it was. *)
Theorem login_existing_wrong_password (e p : string) (salt : string)
    (now : Z) (db : DB) (account : User) :
  endsWith e "@gmail.com" = true ->
  p <> "" ->
  fst (User_findOne e db) = Ret (Some account) ->
  bcrypt_compare p (passwordHash account) = false ->
  api_login env_JWT_SECRET (mkLoginBody (JStr e) (JStr p)) salt now db
  = (error_response 401 "Incorrect password", db).
Proof.
  intros He Hp Hpresent Hinvalid.
  rewrite (login_authenticate_run e p salt now db account He Hp
             (findOne_present _ _ _ Hpresent)).
  rewrite Hinvalid. reflexivity.
Qed.

(** X8. The scenario of the specification: registering and then logging in
    again with the same password succeeds both times and adds no second
    account. *)
Lemma login_twice (e p : string) (salt salt' : string) (now now' : Z)
    (db : DB) :
  endsWith e "@gmail.com" = true ->
  p <> "" ->
  List.find (has_email e) (users db) = None ->
  let db1 := snd (api_login env_JWT_SECRET (mkLoginBody (JStr e) (JStr p)) salt now db) in
  api_login env_JWT_SECRET (mkLoginBody (JStr e) (JStr p)) salt' now' db1
  = (json_response
       (BToken (jwt_sign e (JWT_SECRET env_JWT_SECRET) seven_days now') e), db1).
Proof.
  intros He Hp Hfind db1. subst db1.
  rewrite (login_register_run e p salt now db He Hp Hfind). cbn [snd].
  rewrite (login_authenticate_run e p salt' now' _
             (mkUser e (bcrypt_hash p 10 salt) now) He Hp).
  - cbn [passwordHash]. rewrite bcrypt_compare_hash. reflexivity.
  - cbn [users]. rewrite find_app_none by exact Hfind. simpl.
    unfold has_email at 1. simpl. rewrite String.eqb_refl. reflexivity.
Qed.

End LoginProperties.

(** ** Session tokens *)

Section TokenProperties.
Context {prims : JwtPrims}.

Import JsString JsStringFacts.

Lemma b64url_char_not_dot c : is_b64url_char c = true -> not_char "." c = true.
Proof.
  destruct c as [[] [] [] [] [] [] [] []]; vm_compute; congruence.
Qed.

Lemma b64url_char_not_blank c :
  is_b64url_char c = true -> not_char " " c = true.
Proof.
  destruct c as [[] [] [] [] [] [] [] []]; vm_compute; congruence.
Qed.

Lemma b64url_char_not_space c :
  is_b64url_char c = true -> negb (is_space c) = true.
Proof.
  destruct c as [[] [] [] [] [] [] [] []]; vm_compute; congruence.
Qed.

Lemma b64url_chars s : b64url s = true -> all_chars is_b64url_char s = true.
Proof.
  unfold b64url. intros [_ Hs]%andb_true_iff. exact Hs.
Qed.

Lemma b64url_no_dot s : b64url s = true -> all_chars (not_char ".") s = true.
Proof.
  intros Hs%b64url_chars.
  eapply all_chars_impl; [apply b64url_char_not_dot | exact Hs].
Qed.

(** Three base64url segments joined by dots split back into themselves. *)
Lemma split_three_segments h p s :
  b64url h = true -> b64url p = true -> b64url s = true ->
  split "." (h +:+ "." +:+ p +:+ "." +:+ s) = [h; p; s].
Proof.
  intros Hh Hp Hs.
  change (h +:+ "." +:+ p +:+ "." +:+ s)
    with (h +:+ String "." (p +:+ String "." s)).
  rewrite (split_app_sep "." h) by apply b64url_no_dot, Hh.
  rewrite (split_app_sep "." p) by apply b64url_no_dot, Hp.
  rewrite (split_no_sep "." s) by apply b64url_no_dot, Hs.
  reflexivity.
Qed.

(** What an accepted token is: nothing else verifies. *)
Lemma jwt_verify_inv token secret now c :
  jwt_verify token secret now = Verified c ->
  exists p s,
    split "." token = [jwt_header; p; s]
    /\ b64url p = true /\ b64url s = true
    /\ s = hmac_sha256 secret (jwt_header +:+ "." +:+ p)
    /\ decode_claims p = Some c
    /\ now / 1000 < exp c.
Proof.
  unfold jwt_verify. intros Hv.
  destruct (split "." token) as [|h [|p [|s [|x rest]]]]; try discriminate.
  destruct (b64url h && b64url p && b64url s && String.eqb h jwt_header)%bool
    eqn:Hshape; [|discriminate].
  apply andb_true_iff in Hshape as [Hshape Hhead].
  apply andb_true_iff in Hshape as [Hshape Hs].
  apply andb_true_iff in Hshape as [Hh Hp].
  apply String.eqb_eq in Hhead. subst h.
  destruct (String.eqb_spec s (hmac_sha256 secret (jwt_header +:+ "." +:+ p)))
    as [Hsig|]; [|discriminate].
  destruct (decode_claims p) as [d|] eqn:Hdec; [|discriminate].
  destruct (Z.ltb_spec (now / 1000) (exp d)) as [Hlive|]; [|discriminate].
  injection Hv as <-. exists p, s. repeat split; assumption.
Qed.

(** An accepted token has no white space in it and is not empty. *)
Lemma verified_token_chars token secret now c :
  jwt_verify token secret now = Verified c ->
  all_chars is_b64url_char_or_dot token = true /\ token <> "".
Proof.
  intros (p & s & Hsplit & Hp & Hs & _)%jwt_verify_inv.
  pose proof (join_split "." token) as Hjoin.
  rewrite Hsplit in Hjoin. simpl in Hjoin. rewrite <- Hjoin.
  split; [|discriminate].
  change (String "." (p +:+ String "." s)) with ("." +:+ p +:+ "." +:+ s).
  unfold is_b64url_char_or_dot.
  rewrite !all_chars_app. simpl.
  rewrite (all_chars_impl _ _ p (fun c Hc => orb_true_intro _ _ (or_introl Hc))
             (b64url_chars p Hp)).
  rewrite (all_chars_impl _ _ s (fun c Hc => orb_true_intro _ _ (or_introl Hc))
             (b64url_chars s Hs)).
  reflexivity.
Qed.

(** Signing and then verifying under the same secret, before the expiry. *)
Lemma jwt_verify_sign (identity secret : string) (expiresIn now later : Z) :
  later / 1000 < now / 1000 + expiresIn ->
  jwt_verify (jwt_sign identity secret expiresIn now) secret later
  = Verified (mkClaims identity (now / 1000) (now / 1000 + expiresIn)).
Proof.
  intros Hlive. unfold jwt_sign, jwt_verify.
  set (c := mkClaims identity (now / 1000) (now / 1000 + expiresIn)).
  change ((jwt_header +:+ "." +:+ encode_claims c) +:+ "." +:+
            hmac_sha256 secret (jwt_header +:+ "." +:+ encode_claims c))
    with (jwt_header +:+ "." +:+ encode_claims c +:+ "." +:+
            hmac_sha256 secret (jwt_header +:+ "." +:+ encode_claims c)).
  rewrite split_three_segments
    by (first [reflexivity | apply encode_claims_b64url
              | apply hmac_sha256_b64url]).
  rewrite encode_claims_b64url, hmac_sha256_b64url.
  rewrite String.eqb_refl, decode_encode_claims.
  change (b64url jwt_header) with true.
  cbn [andb]. rewrite String.eqb_refl.
  destruct (Z.ltb_spec (later / 1000) (exp c)) as [|Hdead];
    [reflexivity | simpl in Hdead; lia].
Qed.

(** A token that is not three dot-separated segments is rejected. *)
Lemma jwt_verify_malformed (token secret : string) (now : Z) :
  length (split "." token) <> 3%nat ->
  jwt_verify token secret now = InvalidToken.
Proof.
  unfold jwt_verify.
  destruct (split "." token) as [|h [|p [|s [|x rest]]]]; simpl;
    congruence.
Qed.

(** C5. A token issued for an identity with a secret is accepted by
    [jwt_verify] under the same secret at any time before its expiry, seven
    days after issuance, and the claims recovered carry the identity it was
    issued for. *)
Theorem issue_verify_roundtrip (identity secret : string) (now later : Z) :
  later / 1000 < now / 1000 + seven_days ->
  exists decoded,
    jwt_verify (jwt_sign identity secret seven_days now) secret later
    = Verified decoded
    /\ jwt_email decoded = identity
    /\ exp decoded = now / 1000 + seven_days.
Proof.
  intros Hlive. eexists. split; [apply jwt_verify_sign, Hlive|].
  split; reflexivity.
Qed.

(** C6. A token of three segments whose signature is not the one the secret
    gives, or whose payload does not decode, or whose expiry the clock has
    reached, is answered [InvalidToken]; and whatever token is accepted has
    the expected header, the secret's signature, a payload that decodes to
    the claims returned, and an expiry still ahead. *)
Theorem jwt_verify_rejects (token secret : string) (now : Z)
    (h p s : string) :
  split "." token = [h; p; s] ->
  s <> hmac_sha256 secret (h +:+ "." +:+ p)
  \/ decode_claims p = None
  \/ (exists c, decode_claims p = Some c /\ exp c <= now / 1000) ->
  jwt_verify token secret now = InvalidToken
  /\ (forall t c,
        jwt_verify t secret now = Verified c ->
        exists p' s',
          split "." t = [jwt_header; p'; s']
          /\ s' = hmac_sha256 secret (jwt_header +:+ "." +:+ p')
          /\ decode_claims p' = Some c
          /\ now / 1000 < exp c).
Proof.
  intros Hsplit Hdefect. split.
  - unfold jwt_verify. rewrite Hsplit.
    destruct (b64url h && b64url p && b64url s && String.eqb h jwt_header)%bool;
      [|reflexivity].
    destruct (String.eqb_spec s (hmac_sha256 secret (h +:+ "." +:+ p)))
      as [Hsig|]; [|reflexivity].
    destruct Hdefect as [Hbad | [Hnone | (c & Hsome & Hdead)]].
    + contradiction.
    + rewrite Hnone. reflexivity.
    + rewrite Hsome.
      destruct (Z.ltb_spec (now / 1000) (exp c)); [lia | reflexivity].
  - intros t c (p' & s' & Ht & _ & _ & Hsig & Hdec & Hlive)%jwt_verify_inv.
    exists p', s'. repeat split; assumption.
Qed.

End TokenProperties.

(** ** The access guard and the guarded routes *)

Section GuardProperties.
Context {bc : Bcrypt} {prims : JwtPrims}.
Variable env_JWT_SECRET : option string.

Import JsString JsStringFacts.

Lemma token_char_not_blank c :
  is_b64url_char_or_dot c = true -> not_char " " c = true.
Proof.
  destruct c as [[] [] [] [] [] [] [] []]; vm_compute; congruence.
Qed.

Lemma token_char_not_space c :
  is_b64url_char_or_dot c = true -> negb (is_space c) = true.
Proof.
  destruct c as [[] [] [] [] [] [] [] []]; vm_compute; congruence.
Qed.

(** The guard reads the second space-separated piece of the header,
    whatever the first piece is. *)
Lemma auth_second_piece (word tok : string) (now : Z) (c : Claims) :
  all_chars (not_char " ") word = true ->
  jwt_verify tok (JWT_SECRET env_JWT_SECRET) now = Verified c ->
  auth env_JWT_SECRET (Some (word +:+ " " +:+ tok)) now = Next c.
Proof.
  intros Hword Hverify.
  destruct (verified_token_chars _ _ _ _ Hverify) as [Hchars _].
  unfold auth.
  assert (String.eqb (word +:+ " " +:+ tok) "" = false) as ->.
  { apply string_eqb_false_iff. destruct word; discriminate. }
  change (word +:+ " " +:+ tok) with (word +:+ String " " tok).
  rewrite (split_app_sep " " word tok Hword).
  rewrite (split_no_sep " " tok)
    by (eapply all_chars_impl; [apply token_char_not_blank | exact Hchars]).
  cbn [lookup list_lookup default].
  rewrite trim_id
    by (eapply all_chars_impl; [apply token_char_not_space | exact Hchars]).
  unfold id. rewrite Hverify. reflexivity.
Qed.

(** A header without a space has no second piece: the guard verifies the
    empty string, which is no token. *)
Lemma auth_no_space (h : string) (now : Z) :
  all_chars (not_char " ") h = true ->
  auth env_JWT_SECRET (Some h) now
  = Rejected (error_response 401
                (if String.eqb h "" then "No token" else "Invalid token")).
Proof.
  intros Hh. unfold auth.
  destruct (String.eqb h ""); [reflexivity|].
  rewrite (split_no_sep " " h Hh). reflexivity.
Qed.

(** A token issued by the login endpoint is admitted under "Bearer" until
    it expires. *)
Lemma issued_token_admitted (identity : string) (now later : Z) :
  later / 1000 < now / 1000 + seven_days ->
  auth env_JWT_SECRET
    (Some ("Bearer " +:+
           jwt_sign identity (JWT_SECRET env_JWT_SECRET) seven_days now))
    later
  = Next (mkClaims identity (now / 1000) (now / 1000 + seven_days)).
Proof.
  intros Hlive.
  apply (auth_second_piece "Bearer"); [reflexivity|].
  apply jwt_verify_sign, Hlive.
Qed.

(** C7. On a guarded route, a request without an Authorization header is
    answered 401 "No token" with the database untouched, whatever the
    handler is: the handler does not run.  A request whose header is
    "Bearer " followed by a token that verifies is handed to the handler
    together with the claims recovered from the token. *)
Theorem access_guard (handler : Claims -> DB -> Response * DB) (db : DB)
    (now : Z) (tok : string) (c : Claims) :
  jwt_verify tok (JWT_SECRET env_JWT_SECRET) now = Verified c ->
  auth env_JWT_SECRET None now = Rejected (error_response 401 "No token")
  /\ guarded env_JWT_SECRET None now handler db
     = (error_response 401 "No token", db)
  /\ auth env_JWT_SECRET (Some ("Bearer " +:+ tok)) now = Next c
  /\ guarded env_JWT_SECRET (Some ("Bearer " +:+ tok)) now handler db
     = handler c db.
Proof.
  intros Hverify.
  assert (auth env_JWT_SECRET (Some ("Bearer " +:+ tok)) now = Next c)
    as Hnext by exact (auth_second_piece "Bearer" tok now c eq_refl Hverify).
  repeat split; try reflexivity; [exact Hnext|].
  unfold guarded. rewrite Hnext. reflexivity.
Qed.

(** C10. The guard does not look at the scheme word: a header made of any
    space-free word, one space and a token that verifies is admitted with
    the token's claims; the same token alone as the whole header is
    answered 401 "Invalid token". *)
Theorem auth_ignores_scheme (word tok : string) (now : Z) (c : Claims) :
  all_chars (not_char " ") word = true ->
  jwt_verify tok (JWT_SECRET env_JWT_SECRET) now = Verified c ->
  auth env_JWT_SECRET (Some (word +:+ " " +:+ tok)) now = Next c
  /\ auth env_JWT_SECRET (Some tok) now
     = Rejected (error_response 401 "Invalid token").
Proof.
  intros Hword Hverify. split; [apply auth_second_piece; assumption|].
  destruct (verified_token_chars _ _ _ _ Hverify) as [Hchars Hne].
  rewrite auth_no_space
    by (eapply all_chars_impl; [apply token_char_not_blank | exact Hchars]).
  apply string_eqb_false_iff in Hne. rewrite Hne. reflexivity.
Qed.

(** The projected profile: the hash is gone, the other paths stay. *)
Lemma profile_paths (account : User) :
  let doc := project_out ["passwordHash"] (User_toObject account) in
  doc !! "passwordHash" = None
  /\ doc !! "email" = Some (JStr (email account))
  /\ doc !! "createdAt" = Some (JNum (createdAt account)).
Proof.
  unfold project_out, User_toObject. cbn [foldr].
  split; [apply lookup_delete_eq|].
  rewrite !lookup_delete_ne by discriminate.
  split; [apply lookup_insert_eq|].
  rewrite !lookup_insert_ne by discriminate. apply lookup_insert_eq.
Qed.

(** C8. [GET /api/me] with "Bearer " and a token that verifies, when the
    caller's account is in the [User] collection, is answered 200 with that
    account as an object that has no [passwordHash] path and keeps [email]
    and [createdAt]; the database is untouched. *)
Theorem me_omits_hash (tok : string) (now : Z) (c : Claims) (db : DB)
    (account : User) :
  jwt_verify tok (JWT_SECRET env_JWT_SECRET) now = Verified c ->
  fst (User_findOne (jwt_email c) db) = Ret (Some account) ->
  exists doc,
    api_me env_JWT_SECRET (Some ("Bearer " +:+ tok)) now db
    = (mkResponse 200 (BUser doc), db)
    /\ doc !! "passwordHash" = None
    /\ doc !! "email" = Some (JStr (jwt_email c))
    /\ doc !! "createdAt" = Some (JNum (createdAt account)).
Proof.
  intros Hverify Hpresent.
  unfold User_findOne in Hpresent. cbn [fst] in Hpresent.
  injection Hpresent as Hfind.
  pose proof (find_some_holds _ _ _ Hfind) as Hmail.
  apply String.eqb_eq in Hmail.
  exists (project_out ["passwordHash"] (User_toObject account)).
  destruct (profile_paths account) as (Hhash & Hemail & Hcreated).
  rewrite Hmail in Hemail.
  repeat split; try assumption.
  unfold api_me, guarded.
  assert (auth env_JWT_SECRET (Some ("Bearer " +:+ tok)) now = Next c)
    as -> by exact (auth_second_piece "Bearer" tok now c eq_refl Hverify).
  unfold try_catch, me_handler, User_findOne_projected, bind, User_findOne,
    ret.
  rewrite Hfind. reflexivity.
Qed.

(** When the caller's account is gone, [GET /api/me] still answers 200,
    with [null]. *)
Lemma me_without_account (tok : string) (now : Z) (c : Claims) (db : DB) :
  jwt_verify tok (JWT_SECRET env_JWT_SECRET) now = Verified c ->
  List.find (has_email (jwt_email c)) (users db) = None ->
  api_me env_JWT_SECRET (Some ("Bearer " +:+ tok)) now db
  = (mkResponse 200 BNull, db).
Proof.
  intros Hverify Hfind. unfold api_me, guarded.
  assert (auth env_JWT_SECRET (Some ("Bearer " +:+ tok)) now = Next c)
    as -> by exact (auth_second_piece "Bearer" tok now c eq_refl Hverify).
  unfold try_catch, me_handler, User_findOne_projected, bind, User_findOne,
    ret.
  rewrite Hfind. reflexivity.
Qed.

(** C9. [POST /api/reading] with a token that verifies for a non-empty
    identity and a non-empty [bookKey]: when the collection already holds an
    entry with the caller's email and that [bookKey] the answer is 409
    "Already in reading list" and the database is untouched; otherwise the
    answer is 200 with a new entry for the caller's email and that
    [bookKey], appended to the collection. *)
Theorem reading_insert_unique (tok : string) (now : Z) (c : Claims)
    (b : ReadingBody) (k : string) (db : DB) :
  jwt_verify tok (JWT_SECRET env_JWT_SECRET) now = Verified c ->
  jwt_email c <> "" ->
  body_bookKey b = Some k ->
  k <> "" ->
  match List.find (has_entry (jwt_email c) k) (readingList db) with
  | Some _ =>
      api_reading_post env_JWT_SECRET (Some ("Bearer " +:+ tok)) b now db
      = (error_response 409 "Already in reading list", db)
  | None =>
      let item := mkReadingItem (jwt_email c) k (body_title b)
                    (body_coverId b) (default [] (body_authors b)) now in
      api_reading_post env_JWT_SECRET (Some ("Bearer " +:+ tok)) b now db
      = (json_response (BItem item),
         mkDB (users db) (readingList db ++ [item]))
  end.
Proof.
  intros Hverify Hident Hkey Hk.
  apply string_eqb_false_iff in Hident, Hk.
  unfold api_reading_post, guarded.
  assert (auth env_JWT_SECRET (Some ("Bearer " +:+ tok)) now = Next c)
    as -> by exact (auth_second_piece "Bearer" tok now c eq_refl Hverify).
  unfold try_catch, reading_post_handler. rewrite Hkey, Hk.
  unfold bind, ReadingList_findOne.
  destruct (List.find (has_entry (jwt_email c) k) (readingList db));
    [reflexivity|].
  unfold ReadingList_create. rewrite Hident, Hk. reflexivity.
Qed.

End GuardProperties.

(** ** Facts about sorting and removal *)

Module ListFacts.
Local Open Scope list_scope.

(** Greatest key first. *)
Definition descending {A} (key : A -> Z) (l : list A) : Prop :=
  StronglySorted (fun a b => key b <= key a) l.

Lemma insert_desc_perm {A} (key : A -> Z) x l :
  Permutation (insert_desc key x l) (x :: l).
Proof.
  induction l as [|y l IH]; simpl; [reflexivity|].
  destruct (key y <=? key x); [reflexivity|].
  rewrite IH. apply perm_swap.
Qed.

Lemma sort_desc_perm {A} (key : A -> Z) l : Permutation (sort_desc key l) l.
Proof.
  induction l as [|x l IH]; simpl; [reflexivity|].
  rewrite insert_desc_perm. apply perm_skip, IH.
Qed.

Lemma insert_desc_descending {A} (key : A -> Z) x l :
  descending key l -> descending key (insert_desc key x l).
Proof.
  unfold descending. induction l as [|y l IH]; simpl; intros Hl.
  - constructor; constructor.
  - destruct (Z.leb_spec (key y) (key x)) as [Hle|Hgt].
    + constructor; [exact Hl|].
      inversion Hl as [|? ? _ Hall]; subst.
      constructor; [exact Hle|].
      eapply List.Forall_impl; [|exact Hall]. simpl. intros; lia.
    + inversion Hl as [|? ? Hl' Hall]; subst.
      constructor; [apply IH, Hl'|].
      rewrite (List.Forall_forall (fun b => key b <= key y)).
      intros z Hz.
      apply (Permutation_in _ (insert_desc_perm key x l)) in Hz.
      destruct Hz as [<-|Hz]; [lia|].
      rewrite (List.Forall_forall (fun b => key b <= key y)) in Hall.
      apply Hall, Hz.
Qed.

Lemma sort_desc_descending {A} (key : A -> Z) l :
  descending key (sort_desc key l).
Proof.
  induction l as [|x l IH]; simpl; [constructor|].
  apply insert_desc_descending, IH.
Qed.

(** A prefix and the matching suffix of a descending list: the prefix is
    descending and nothing in the suffix has a greater key than anything in
    the prefix. *)
Lemma descending_app {A} (key : A -> Z) (l1 l2 : list A) :
  descending key (l1 ++ l2) ->
  descending key l1
  /\ forall a b, In a l1 -> In b l2 -> key b <= key a.
Proof.
  unfold descending. induction l1 as [|x l1 IH]; simpl; intros Hl.
  - split; [constructor | intros a b []].
  - inversion Hl as [|? ? Hl' Hall]; subst.
    destruct (IH Hl') as [Hl1 Hcross].
    apply List.Forall_app in Hall as [Hall1 Hall2].
    split; [constructor; assumption|].
    intros a b [<-|Ha] Hb.
    + rewrite (List.Forall_forall (fun b => key b <= key x)) in Hall2.
      apply Hall2, Hb.
    + apply Hcross; assumption.
Qed.

(** A new element with a key above all others sorts to the front. *)
Lemma sort_desc_newest {A} (key : A -> Z) (l : list A) (x : A) :
  (forall y, In y l -> key y < key x) ->
  sort_desc key (l ++ [x]) = x :: sort_desc key l.
Proof.
  induction l as [|y l IH]; simpl; intros Hnew; [reflexivity|].
  rewrite IH by (intros z Hz; apply Hnew; right; exact Hz).
  simpl. destruct (Z.leb_spec (key x) (key y)) as [Hle|_]; [|reflexivity].
  specialize (Hnew y (or_introl eq_refl)). lia.
Qed.

Lemma remove_first_none {A} (f : A -> bool) l :
  List.find f l = None -> remove_first f l = l.
Proof.
  induction l as [|x l IH]; simpl; [reflexivity|].
  destruct (f x); [discriminate|]. intros Hl. rewrite (IH Hl). reflexivity.
Qed.

(** Removing the first match of a list that has one takes exactly that
    element out. *)
Lemma remove_first_some {A} (f : A -> bool) l x :
  List.find f l = Some x ->
  exists before after,
    l = before ++ x :: after
    /\ remove_first f l = before ++ after
    /\ List.find f before = None.
Proof.
  induction l as [|y l IH]; simpl; [discriminate|].
  destruct (f y) eqn:Hy.
  - intros [= <-]. exists [], l. repeat split; reflexivity.
  - intros Hl. destruct (IH Hl) as (before & after & -> & Hrem & Hnone).
    exists (y :: before), after. simpl. rewrite Hrem, Hy.
    split; [reflexivity|]. split; [reflexivity | exact Hnone].
Qed.

Lemma remove_first_app_new {A} (f : A -> bool) l x :
  List.find f l = None -> f x = true -> remove_first f (l ++ [x]) = l.
Proof.
  induction l as [|y l IH]; simpl; intros Hl Hx; [rewrite Hx; reflexivity|].
  destruct (f y); [discriminate|]. rewrite (IH Hl Hx). reflexivity.
Qed.

(** Elements that do not match are all kept, in order. *)
Lemma remove_first_others {A} (f g : A -> bool) l :
  (forall x, g x = true -> f x = false) ->
  List.filter g (remove_first f l) = List.filter g l.
Proof.
  intros Hfg. induction l as [|x l IH]; simpl; [reflexivity|].
  destruct (f x) eqn:Hx.
  - destruct (g x) eqn:Hgx; [|reflexivity].
    rewrite (Hfg x Hgx) in Hx. discriminate.
  - simpl. rewrite IH. reflexivity.
Qed.

End ListFacts.

(** ** More on the access guard *)

Section GuardEdges.
Context {bc : Bcrypt} {prims : JwtPrims}.
Variable env_JWT_SECRET : option string.

Import JsString JsStringFacts.

(** A signed token verified at any later time: accepted strictly before its
    expiry, rejected from then on. *)
Lemma jwt_verify_sign_at (identity secret : string) (expiresIn now later : Z) :
  jwt_verify (jwt_sign identity secret expiresIn now) secret later
  = if later / 1000 <? now / 1000 + expiresIn
    then Verified (mkClaims identity (now / 1000) (now / 1000 + expiresIn))
    else InvalidToken.
Proof.
  destruct (Z.ltb_spec (later / 1000) (now / 1000 + expiresIn)) as [Hlive|Hdead].
  - apply jwt_verify_sign, Hlive.
  - unfold jwt_sign, jwt_verify.
    set (c := mkClaims identity (now / 1000) (now / 1000 + expiresIn)).
    change ((jwt_header +:+ "." +:+ encode_claims c) +:+ "." +:+
              hmac_sha256 secret (jwt_header +:+ "." +:+ encode_claims c))
      with (jwt_header +:+ "." +:+ encode_claims c +:+ "." +:+
              hmac_sha256 secret (jwt_header +:+ "." +:+ encode_claims c)).
    rewrite split_three_segments
      by (first [reflexivity | apply encode_claims_b64url
                | apply hmac_sha256_b64url]).
    rewrite encode_claims_b64url, hmac_sha256_b64url.
    rewrite String.eqb_refl, decode_encode_claims.
    change (b64url jwt_header) with true.
    cbn [andb]. rewrite String.eqb_refl.
    destruct (Z.ltb_spec (later / 1000) (exp c)) as [Hlive|_];
      [simpl in Hlive; lia | reflexivity].
Qed.

Lemma b64url_token_chars s :
  b64url s = true -> all_chars is_b64url_char_or_dot s = true.
Proof.
  intros Hs%b64url_chars.
  eapply all_chars_impl; [|exact Hs].
  intros c Hc. unfold is_b64url_char_or_dot. rewrite Hc. reflexivity.
Qed.

(** A signed token is made of base64url code units and dots. *)
Lemma jwt_sign_chars (identity secret : string) (expiresIn now : Z) :
  all_chars is_b64url_char_or_dot (jwt_sign identity secret expiresIn now)
  = true.
Proof.
  unfold jwt_sign. rewrite !all_chars_app.
  rewrite (b64url_token_chars _ (encode_claims_b64url _)).
  rewrite (b64url_token_chars _ (hmac_sha256_b64url _ _)).
  reflexivity.
Qed.

(** The guard on a header of a space-free word, a space and a string of
    token code units: the answer is that of [jwt_verify] on the string. *)
Lemma auth_reads_token (word tok : string) (now : Z) :
  all_chars (not_char " ") word = true ->
  all_chars is_b64url_char_or_dot tok = true ->
  auth env_JWT_SECRET (Some (word +:+ " " +:+ tok)) now
  = match jwt_verify tok (JWT_SECRET env_JWT_SECRET) now with
    | Verified decoded => Next decoded
    | InvalidToken => Rejected (error_response 401 "Invalid token")
    end.
Proof.
  intros Hword Hchars. unfold auth.
  assert (String.eqb (word +:+ " " +:+ tok) "" = false) as ->.
  { apply string_eqb_false_iff. destruct word; discriminate. }
  change (word +:+ " " +:+ tok) with (word +:+ String " " tok).
  rewrite (split_app_sep " " word tok Hword).
  rewrite (split_no_sep " " tok)
    by (eapply all_chars_impl; [apply token_char_not_blank | exact Hchars]).
  cbn [lookup list_lookup default].
  rewrite trim_id
    by (eapply all_chars_impl; [apply token_char_not_space | exact Hchars]).
  reflexivity.
Qed.

(** X10. Whatever follows a second space in the Authorization header is
    ignored: a space-free word, a space, a token that verifies, a space and
    any further text is admitted with the token's claims. *)
Theorem auth_ignores_trailing_pieces (word tok rest : string) (now : Z)
    (c : Claims) :
  all_chars (not_char " ") word = true ->
  jwt_verify tok (JWT_SECRET env_JWT_SECRET) now = Verified c ->
  auth env_JWT_SECRET (Some (word +:+ " " +:+ tok +:+ " " +:+ rest)) now
  = Next c.
Proof.
  intros Hword Hverify.
  destruct (verified_token_chars _ _ _ _ Hverify) as [Hchars _].
  unfold auth.
  assert (String.eqb (word +:+ " " +:+ tok +:+ " " +:+ rest) "" = false) as ->.
  { apply string_eqb_false_iff. destruct word; discriminate. }
  change (word +:+ " " +:+ tok +:+ " " +:+ rest)
    with (word +:+ String " " (tok +:+ String " " rest)).
  rewrite (split_app_sep " " word _ Hword).
  rewrite (split_app_sep " " tok rest)
    by (eapply all_chars_impl; [apply token_char_not_blank | exact Hchars]).
  cbn [lookup list_lookup default].
  rewrite trim_id
    by (eapply all_chars_impl; [apply token_char_not_space | exact Hchars]).
  unfold id. rewrite Hverify. reflexivity.
Qed.

(** X11. Two spaces after the scheme word leave an empty second piece: the
    request is answered 401 "Invalid token" whatever follows, a valid token
    included. *)
Theorem auth_double_space (word rest : string) (now : Z) :
  all_chars (not_char " ") word = true ->
  auth env_JWT_SECRET (Some (word +:+ "  " +:+ rest)) now
  = Rejected (error_response 401 "Invalid token").
Proof.
  intros Hword. unfold auth.
  assert (String.eqb (word +:+ "  " +:+ rest) "" = false) as ->.
  { apply string_eqb_false_iff. destruct word; discriminate. }
  change (word +:+ "  " +:+ rest)
    with (word +:+ String " " (String " " rest)).
  rewrite (split_app_sep " " word _ Hword).
  cbn [split]. rewrite Ascii.eqb_refl. reflexivity.
Qed.

End GuardEdges.

(** ** Every way a login can end *)

Section LoginOutcomes.
Context {bc : Bcrypt} {prims : JwtPrims}.
Variable env_JWT_SECRET : option string.

Import JsString JsStringFacts.
Local Open Scope list_scope.

(** The answers of [POST /api/login], each with the condition under which
    the handler gives it. *)
Inductive login_case (b : LoginBody) (salt : string) (now : Z) (db : DB)
    : Response * DB -> Prop :=
  | case_missing :
      truthy (body_email b) = false \/ truthy (body_password b) = false ->
      login_case b salt now db
        (error_response 400 "Missing email or password", db)
  | case_domain e :
      body_email b = JStr e ->
      endsWith e "@gmail.com" = false ->
      login_case b salt now db
        (error_response 400 "Only Gmail accounts are allowed", db)
  | case_thrown :
      (forall e p, body_email b = JStr e -> body_password b <> JStr p) ->
      login_case b salt now db (error_response 500 "Operation failed", db)
  | case_wrong_password e p account :
      body_email b = JStr e ->
      body_password b = JStr p ->
      List.find (has_email e) (users db) = Some account ->
      bcrypt_compare p (passwordHash account) = false ->
      login_case b salt now db (error_response 401 "Incorrect password", db)
  | case_authenticated e p account :
      body_email b = JStr e ->
      body_password b = JStr p ->
      p <> "" ->
      endsWith e "@gmail.com" = true ->
      List.find (has_email e) (users db) = Some account ->
      bcrypt_compare p (passwordHash account) = true ->
      login_case b salt now db
        (json_response
           (BToken (jwt_sign e (JWT_SECRET env_JWT_SECRET) seven_days now) e),
         db)
  | case_registered e p :
      body_email b = JStr e ->
      body_password b = JStr p ->
      p <> "" ->
      endsWith e "@gmail.com" = true ->
      List.find (has_email e) (users db) = None ->
      login_case b salt now db
        (json_response
           (BToken (jwt_sign e (JWT_SECRET env_JWT_SECRET) seven_days now) e),
         mkDB (users db ++ [mkUser e (bcrypt_hash p 10 salt) now])
              (readingList db)).

(** A body value is a string or it is not. *)
Lemma classic_string (v : jsval) :
  (exists s, v = JStr s) \/ (forall s, v <> JStr s).
Proof.
  destruct v; try (right; discriminate). left. eexists. reflexivity.
Qed.

Lemma truthy_string_nonempty p : truthy (JStr p) = true -> p <> "".
Proof.
  simpl. intros Hp%negb_true_iff. apply string_eqb_false_iff, Hp.
Qed.

(** Every login ends in one of the six cases. *)
Lemma login_cases (b : LoginBody) (salt : string) (now : Z) (db : DB) :
  login_case b salt now db (api_login env_JWT_SECRET b salt now db).
Proof.
  destruct b as [v w].
  destruct (truthy v) eqn:Hv; cycle 1.
  { replace (api_login env_JWT_SECRET (mkLoginBody v w) salt now db)
      with (error_response 400 "Missing email or password", db).
    - apply case_missing. left. exact Hv.
    - unfold api_login, try_catch, login_handler.
      cbn [body_email body_password]. rewrite Hv. reflexivity. }
  destruct (truthy w) eqn:Hw; cycle 1.
  { replace (api_login env_JWT_SECRET (mkLoginBody v w) salt now db)
      with (error_response 400 "Missing email or password", db).
    - apply case_missing. right. exact Hw.
    - unfold api_login, try_catch, login_handler.
      cbn [body_email body_password]. rewrite Hv, Hw. reflexivity. }
  destruct (classic_string v) as [[e ->]|Hnot].
  2:{ rewrite (login_non_string_email env_JWT_SECRET v w salt now db Hv Hw Hnot).
      apply case_thrown. intros e p He. exfalso. exact (Hnot e He). }
  destruct (endsWith e "@gmail.com") eqn:He; cycle 1.
  { replace (api_login env_JWT_SECRET (mkLoginBody (JStr e) w) salt now db)
      with (error_response 400 "Only Gmail accounts are allowed", db).
    - eapply case_domain; [reflexivity | exact He].
    - unfold api_login, try_catch, login_handler.
      cbn [body_email body_password]. rewrite Hv, Hw, He. reflexivity. }
  destruct (classic_string w) as [[p ->]|Hnot].
  - pose proof (truthy_string_nonempty p Hw) as Hp.
    destruct (List.find (has_email e) (users db)) as [account|] eqn:Hfind.
    + rewrite (login_authenticate_run env_JWT_SECRET e p salt now db account
                 He Hp Hfind).
      destruct (bcrypt_compare p (passwordHash account)) eqn:Hcmp.
      * eapply case_authenticated; eauto.
      * eapply case_wrong_password; eauto.
    + rewrite (login_register_run env_JWT_SECRET e p salt now db He Hp Hfind).
      eapply case_registered; eauto.
  - replace (api_login env_JWT_SECRET (mkLoginBody (JStr e) w) salt now db)
      with (error_response 500 "Operation failed", db).
    + apply case_thrown. intros e' p _ Hw'. exact (Hnot p Hw').
    + unfold api_login, try_catch, login_handler.
      cbn [body_email body_password]. rewrite Hv, Hw, He.
      cbn [negb orb]. unfold bind at 1, User_findOne.
      destruct (List.find (has_email e) (users db));
        destruct w; try reflexivity; exfalso; eapply Hnot; reflexivity.
Qed.

(** What a 200 from the login endpoint entails. *)
Lemma login_success_inv (b : LoginBody) (salt : string) (now : Z) (db : DB)
    (r : Response) (db' : DB) :
  api_login env_JWT_SECRET b salt now db = (r, db') ->
  status r = 200 ->
  exists e p account,
    body_email b = JStr e
    /\ body_password b = JStr p
    /\ endsWith e "@gmail.com" = true
    /\ r = json_response
             (BToken (jwt_sign e (JWT_SECRET env_JWT_SECRET) seven_days now) e)
    /\ List.find (has_email e) (users db') = Some account
    /\ bcrypt_compare p (passwordHash account) = true
    /\ readingList db' = readingList db
    /\ (users db' = users db
        \/ List.find (has_email e) (users db) = None
           /\ users db' = users db ++ [account]
           /\ account = mkUser e (bcrypt_hash p 10 salt) now).
Proof.
  intros Hrun Hok.
  pose proof (login_cases b salt now db) as Hcase. rewrite Hrun in Hcase.
  remember (r, db') as out eqn:Hout.
  destruct Hcase as [Hmiss | e He Hdom | Hthrown | e p account He Hp Hfind Hcmp
                    | e p account He Hp Hne Hmail Hfind Hcmp
                    | e p He Hp Hne Hmail Hfind];
    injection Hout as <- <-; try discriminate Hok.
  - exists e, p, account. repeat split; try assumption. left. reflexivity.
  - exists e, p, (mkUser e (bcrypt_hash p 10 salt) now).
    repeat split; try assumption.
    + cbn [users]. rewrite find_app_none by exact Hfind. simpl.
      unfold has_email at 1. simpl. rewrite String.eqb_refl. reflexivity.
    + cbn [passwordHash]. apply bcrypt_compare_hash.
    + right. repeat split. exact Hfind.
Qed.

(** X1. A login whose email or password is missing or falsy -- absent,
    [null], [false], [0] or the empty string -- is answered 400 "Missing
    email or password" and the database is left as it was. *)
Theorem login_missing_field (b : LoginBody) (salt : string) (now : Z)
    (db : DB) :
  truthy (body_email b) = false \/ truthy (body_password b) = false ->
  api_login env_JWT_SECRET b salt now db
  = (error_response 400 "Missing email or password", db).
Proof.
  intros Hmissing. unfold api_login, try_catch, login_handler.
  destruct Hmissing as [-> | ->]; [reflexivity|].
  rewrite orb_true_r. reflexivity.
Qed.

(** A truthy password that is not a string, under an accepted email,
    reaches bcryptjs, which rejects it: 500, nothing written. *)
Lemma login_non_string_password (e : string) (w : jsval) (salt : string)
    (now : Z) (db : DB) :
  endsWith e "@gmail.com" = true ->
  truthy w = true ->
  (forall p, w <> JStr p) ->
  api_login env_JWT_SECRET (mkLoginBody (JStr e) w) salt now db
  = (error_response 500 "Operation failed", db).
Proof.
  intros He Hw Hnot. unfold api_login, try_catch, login_handler.
  cbn [body_email body_password]. rewrite (gmail_truthy e He), Hw, He.
  cbn [negb orb]. unfold bind at 1, User_findOne.
  destruct (List.find (has_email e) (users db));
    destruct w; try reflexivity; exfalso; eapply Hnot; reflexivity.
Qed.

(** X2. A login with both fields present in which the email is not a string,
    or the email is an accepted string and the password is not a string, is
    answered 500 "Operation failed"; no account is created or changed. *)
Theorem login_type_error (b : LoginBody) (salt : string) (now : Z) (db : DB) :
  truthy (body_email b) = true ->
  truthy (body_password b) = true ->
  (forall e, body_email b <> JStr e)
  \/ ((exists e, body_email b = JStr e /\ endsWith e "@gmail.com" = true)
      /\ forall p, body_password b <> JStr p) ->
  api_login env_JWT_SECRET b salt now db
  = (error_response 500 "Operation failed", db).
Proof.
  destruct b as [v w]. cbn [body_email body_password].
  intros Hv Hw [Hnot | [(e & -> & He) Hnot]].
  - apply login_non_string_email; assumption.
  - apply login_non_string_password; assumption.
Qed.

(** What a login may write. *)
Lemma login_store_change (b : LoginBody) (salt : string) (now : Z) (db : DB) :
  readingList (snd (api_login env_JWT_SECRET b salt now db)) = readingList db
  /\ (users (snd (api_login env_JWT_SECRET b salt now db)) = users db
      \/ exists e h,
           body_email b = JStr e
           /\ endsWith e "@gmail.com" = true
           /\ List.find (has_email e) (users db) = None
           /\ users (snd (api_login env_JWT_SECRET b salt now db))
              = users db ++ [mkUser e h now]).
Proof.
  destruct (login_cases b salt now db)
    as [Hmiss | e He Hdom | Hthrown | e p account He Hp Hfind Hcmp
       | e p account He Hp Hne Hmail Hfind Hcmp
       | e p He Hp Hne Hmail Hfind];
    cbn [snd users readingList]; split; try reflexivity; try (left; reflexivity).
  right. exists e, (bcrypt_hash p 10 salt). repeat split; assumption.
Qed.

(** X3. No login, whatever the request, touches the reading list or the
    accounts already stored: the [User] collection afterwards is the one
    before, or the one before followed by a single new account for the
    request's email, created at the time of the request, and only when no
    account had that email. *)
Theorem login_keeps_accounts (b : LoginBody) (salt : string) (now : Z)
    (db : DB) :
  let db' := snd (api_login env_JWT_SECRET b salt now db) in
  readingList db' = readingList db
  /\ (users db' = users db
      \/ exists e h,
           body_email b = JStr e
           /\ List.find (has_email e) (users db) = None
           /\ users db' = users db ++ [mkUser e h now]).
Proof.
  cbn zeta. destruct (login_store_change b salt now db) as [Hlist Husers].
  split; [exact Hlist|].
  destruct Husers as [Hsame | (e & h & He & _ & Hfind & Hnew)];
    [left; exact Hsame|].
  right. exists e, h. repeat split; assumption.
Qed.

Lemma find_none_not_in (e : string) (l : list User) :
  List.find (has_email e) l = None -> ~ In e (map email l).
Proof.
  induction l as [|u l IH]; simpl; [tauto|].
  unfold has_email at 1. destruct (String.eqb_spec (email u) e) as [|Hne];
    [discriminate|].
  intros Hl [Heq|Hin]; [exact (Hne Heq) | exact (IH Hl Hin)].
Qed.

Lemma NoDup_snoc {A} (l : list A) (x : A) :
  List.NoDup l -> ~ In x l -> List.NoDup (l ++ [x]).
Proof.
  induction l as [|y l IH]; simpl; intros Hl Hx.
  - constructor; [intros [] | constructor].
  - inversion Hl as [|? ? Hy Hl']; subst. constructor.
    + rewrite in_app_iff. simpl. intros [Hin | [-> | []]]; tauto.
    + apply IH; tauto.
Qed.

(** X4. If no two stored accounts share an email before a login, none do
    after it, whatever the request. *)
Theorem login_preserves_unique_emails (b : LoginBody) (salt : string)
    (now : Z) (db : DB) :
  List.NoDup (map email (users db)) ->
  List.NoDup (map email (users (snd (api_login env_JWT_SECRET b salt now db)))).
Proof.
  intros Hunique.
  destruct (login_store_change b salt now db)
    as [_ [-> | (e & h & _ & _ & Hfind & ->)]]; [exact Hunique|].
  rewrite map_app. simpl.
  apply NoDup_snoc; [exact Hunique | apply find_none_not_in, Hfind].
Qed.

(** X5. If every stored account has an email ending in "@gmail.com" before
    a login, every one does after it, whatever the request. *)
Theorem login_preserves_domain_policy (b : LoginBody) (salt : string)
    (now : Z) (db : DB) :
  List.Forall (fun u => endsWith (email u) "@gmail.com" = true) (users db) ->
  List.Forall (fun u => endsWith (email u) "@gmail.com" = true)
    (users (snd (api_login env_JWT_SECRET b salt now db))).
Proof.
  intros Hpolicy.
  destruct (login_store_change b salt now db)
    as [_ [-> | (e & h & _ & He & _ & ->)]]; [exact Hpolicy|].
  apply List.Forall_app. split; [exact Hpolicy|].
  constructor; [exact He | constructor].
Qed.

(** X6. A login is answered 200 only to a request whose email is a string
    ending in "@gmail.com" and whose password is a string that
    [bcrypt.compare] accepts against the hash of the account stored under
    that email afterwards; the body is a token signed for that email. *)
Theorem login_success_sound (b : LoginBody) (salt : string) (now : Z)
    (db : DB) (r : Response) (db' : DB) :
  api_login env_JWT_SECRET b salt now db = (r, db') ->
  status r = 200 ->
  exists e p account,
    body_email b = JStr e
    /\ body_password b = JStr p
    /\ endsWith e "@gmail.com" = true
    /\ body r
       = BToken (jwt_sign e (JWT_SECRET env_JWT_SECRET) seven_days now) e
    /\ List.find (has_email e) (users db') = Some account
    /\ bcrypt_compare p (passwordHash account) = true.
Proof.
  intros Hrun Hok.
  destruct (login_success_inv b salt now db r db' Hrun Hok)
    as (e & p & account & He & Hp & Hmail & -> & Hfind & Hcmp & _).
  exists e, p, account. repeat split; assumption.
Qed.

(** X7. The token a successful login returns opens the guard under "Bearer"
    with the login's email as identity at every time before seven days
    (604800 seconds) past the second of the login, and from then on the
    guard answers 401 "Invalid token". *)
Theorem login_token_session (b : LoginBody) (salt : string) (now : Z)
    (db : DB) (t e : string) (db' : DB) (later : Z) :
  api_login env_JWT_SECRET b salt now db
  = (json_response (BToken t e), db') ->
  auth env_JWT_SECRET (Some ("Bearer " +:+ t)) later
  = if later / 1000 <? now / 1000 + 604800
    then Next (mkClaims e (now / 1000) (now / 1000 + 604800))
    else Rejected (error_response 401 "Invalid token").
Proof.
  intros Hrun.
  destruct (login_success_inv b salt now db _ db' Hrun eq_refl)
    as (e' & p & account & _ & _ & _ & Hbody & _).
  injection Hbody as -> ->.
  change ("Bearer " +:+
          jwt_sign e' (JWT_SECRET env_JWT_SECRET) seven_days now)
    with ("Bearer" +:+ " " +:+
          jwt_sign e' (JWT_SECRET env_JWT_SECRET) seven_days now).
  rewrite auth_reads_token by (first [reflexivity | apply jwt_sign_chars]).
  rewrite jwt_verify_sign_at. change seven_days with 604800.
  destruct (later / 1000 <? now / 1000 + 604800); reflexivity.
Qed.

(** [GET /api/me] once the guard has admitted the caller and the account is
    there. *)
Lemma me_run (authorization : option string) (now : Z) (db : DB)
    (c : Claims) (account : User) :
  auth env_JWT_SECRET authorization now = Next c ->
  List.find (has_email (jwt_email c)) (users db) = Some account ->
  api_me env_JWT_SECRET authorization now db
  = (mkResponse 200
       (BUser (project_out ["passwordHash"] (User_toObject account))), db).
Proof.
  intros Hauth Hfind. unfold api_me, guarded. rewrite Hauth.
  unfold try_catch, me_handler, User_findOne_projected, bind, User_findOne,
    ret.
  rewrite Hfind. reflexivity.
Qed.

(** X9. After a successful login, [GET /api/me] with "Bearer " and the
    returned token, before the token expires, is answered 200 with an object
    whose [email] is the login's email and which has no [passwordHash]; the
    database is not changed by it. *)
Theorem login_then_me (b : LoginBody) (salt : string) (now : Z) (db : DB)
    (t e : string) (db' : DB) (later : Z) :
  api_login env_JWT_SECRET b salt now db
  = (json_response (BToken t e), db') ->
  later / 1000 < now / 1000 + seven_days ->
  exists doc,
    api_me env_JWT_SECRET (Some ("Bearer " +:+ t)) later db'
    = (mkResponse 200 (BUser doc), db')
    /\ doc !! "email" = Some (JStr e)
    /\ doc !! "passwordHash" = None.
Proof.
  intros Hrun Hlive.
  destruct (login_success_inv b salt now db _ db' Hrun eq_refl)
    as (e' & p & account & _ & _ & _ & Hbody & Hfind & _).
  injection Hbody as -> ->.
  exists (project_out ["passwordHash"] (User_toObject account)).
  destruct (profile_paths account) as (Hhash & Hemail & _).
  pose proof (find_some_holds _ _ _ Hfind) as Hmail.
  apply String.eqb_eq in Hmail. rewrite Hmail in Hemail.
  repeat split; try assumption.
  apply (me_run _ later db'
           (mkClaims e' (now / 1000) (now / 1000 + seven_days)) account);
    [|exact Hfind].
  apply issued_token_admitted, Hlive.
Qed.

End LoginOutcomes.

(** ** Reviews *)

Section ReviewProperties.
Context {bc : Bcrypt} {prims : JwtPrims}.
Variable env_JWT_SECRET : option string.

Import JsString JsStringFacts ListFacts.
Local Open Scope list_scope.

(** X12. [GET /api/reviews/:bookKey] needs no token and changes nothing.  It
    answers 200 with at most 50 reviews, newest first; together with some
    remainder they are exactly the stored reviews of that book, nothing in
    the remainder is newer than anything returned, and the remainder is
    empty when fewer than 50 are returned. *)
Theorem reviews_get_recent (k : string) (s : Store) :
  exists recent rest,
    api_reviews_get k s = (json_reply (PReviews recent), s)
    /\ (length recent <= 50)%nat
    /\ Permutation (recent ++ rest) (List.filter (has_bookKey k) (reviews s))
    /\ descending review_createdAt recent
    /\ (forall a b, In a recent -> In b rest ->
                    review_createdAt b <= review_createdAt a)
    /\ ((length recent < 50)%nat -> rest = []).
Proof.
  set (sorted := sort_desc review_createdAt
                   (List.filter (has_bookKey k) (reviews s))).
  exists (take 50 sorted), (drop 50 sorted).
  pose proof (sort_desc_descending review_createdAt
                (List.filter (has_bookKey k) (reviews s))) as Hsorted.
  fold sorted in Hsorted. rewrite <- (take_drop 50 sorted) in Hsorted.
  apply descending_app in Hsorted as [Hrecent Hrest].
  repeat split.
  - rewrite length_take. lia.
  - rewrite take_drop. apply sort_desc_perm.
  - exact Hrecent.
  - exact Hrest.
  - rewrite length_take. intros Hshort. apply drop_ge. lia.
Qed.

(** [POST /api/reviews/:bookKey] once the guard has admitted the caller and
    the text is there: the document is validated and saved, or the route
    answers 500. *)
Lemma review_post_run (authorization : option string) (k : string)
    (b : ReviewBody) (now : Z) (s : Store) (c : Claims) (t : string) :
  auth env_JWT_SECRET authorization now = Next c ->
  body_text b = Some t ->
  t <> "" ->
  api_reviews_post env_JWT_SECRET authorization k b now s
  = match Review_validate
            (mkReview k (jwt_email c)
               (Some (rating_or_zero (body_rating b))) t now) with
    | Some _ => (error_reply 500 "Failed to save review", s)
    | None =>
        (json_reply
           (PReview (mkReview k (jwt_email c)
                       (Some (rating_or_zero (body_rating b))) t now)),
         mkStore (base s)
           (reviews s ++ [mkReview k (jwt_email c)
                            (Some (rating_or_zero (body_rating b))) t now]))
    end.
Proof.
  intros Hauth Htext Ht%string_eqb_false_iff.
  unfold api_reviews_post, guarded_route. rewrite Hauth.
  unfold st_catch, review_post_handler. rewrite Htext, Ht.
  unfold st_bind, Review_create.
  destruct (Review_validate _); reflexivity.
Qed.

Lemma bearer_admitted (tok : string) (now : Z) (c : Claims) :
  jwt_verify tok (JWT_SECRET env_JWT_SECRET) now = Verified c ->
  auth env_JWT_SECRET (Some ("Bearer " +:+ tok)) now = Next c.
Proof.
  intros Hverify. exact (auth_second_piece _ "Bearer" tok now c eq_refl Hverify).
Qed.

(** A well-formed review from an admitted caller is saved. *)
Lemma review_post_ok (authorization : option string) (k : string)
    (b : ReviewBody) (now : Z) (s : Store) (c : Claims) (t : string) (n : Z) :
  auth env_JWT_SECRET authorization now = Next c ->
  jwt_email c <> "" ->
  k <> "" ->
  body_text b = Some t ->
  t <> "" ->
  body_rating b = Some n ->
  1 <= n <= 5 ->
  api_reviews_post env_JWT_SECRET authorization k b now s
  = (json_reply (PReview (mkReview k (jwt_email c) (Some n) t now)),
     mkStore (base s)
       (reviews s ++ [mkReview k (jwt_email c) (Some n) t now])).
Proof.
  intros Hauth He Hk Htext Ht Hrating Hn.
  rewrite (review_post_run authorization k b now s c t Hauth Htext Ht).
  rewrite Hrating. unfold rating_or_zero.
  assert ((n =? 0) = false) as -> by lia.
  unfold Review_validate. cbn [review_bookKey review_userEmail text rating].
  apply string_eqb_false_iff in He, Hk, Ht. rewrite He, Hk, Ht.
  assert (((1 <=? n) && (n <=? 5))%bool = true) as ->
    by (apply andb_true_iff; lia).
  reflexivity.
Qed.

(** X13. [POST /api/reviews/:bookKey] with a token that verifies for a
    non-empty identity, a non-empty book key, a non-empty text and a rating
    from 1 to 5 is answered 200 with the new review, which is appended to
    the collection under the token's email; earlier reviews, by the same
    caller for the same book included, stay. *)
Theorem review_post_saved (tok : string) (now : Z) (c : Claims) (k : string)
    (b : ReviewBody) (t : string) (n : Z) (s : Store) :
  jwt_verify tok (JWT_SECRET env_JWT_SECRET) now = Verified c ->
  jwt_email c <> "" ->
  k <> "" ->
  body_text b = Some t ->
  t <> "" ->
  body_rating b = Some n ->
  1 <= n <= 5 ->
  api_reviews_post env_JWT_SECRET (Some ("Bearer " +:+ tok)) k b now s
  = (json_reply (PReview (mkReview k (jwt_email c) (Some n) t now)),
     mkStore (base s)
       (reviews s ++ [mkReview k (jwt_email c) (Some n) t now])).
Proof.
  intros Hverify. apply review_post_ok, bearer_admitted, Hverify.
Qed.

(** X14. A review posted without a rating, or with a rating below 1 or
    above 5, is not saved: the handler stores [rating || 0], the schema
    wants 1 to 5, and the route answers 500 "Failed to save review" with the
    store as it was. *)
Theorem review_post_rating_rejected (tok : string) (now : Z) (c : Claims)
    (k : string) (b : ReviewBody) (t : string) (s : Store) :
  jwt_verify tok (JWT_SECRET env_JWT_SECRET) now = Verified c ->
  body_text b = Some t ->
  t <> "" ->
  body_rating b = None
  \/ (exists n, body_rating b = Some n /\ (n < 1 \/ 5 < n)) ->
  api_reviews_post env_JWT_SECRET (Some ("Bearer " +:+ tok)) k b now s
  = (error_reply 500 "Failed to save review", s).
Proof.
  intros Hverify Htext Ht Hrating.
  rewrite (review_post_run _ k b now s c t (bearer_admitted _ _ _ Hverify)
             Htext Ht).
  assert (((1 <=? rating_or_zero (body_rating b))
           && (rating_or_zero (body_rating b) <=? 5))%bool = false) as Hout.
  { destruct Hrating as [-> | (n & -> & Hn)]; [reflexivity|].
    unfold rating_or_zero. destruct (Z.eqb_spec n 0) as [->|_];
      [reflexivity|].
    apply andb_false_iff. lia. }
  unfold Review_validate. cbn [review_bookKey review_userEmail text rating].
  rewrite Hout.
  destruct (String.eqb k ""); [reflexivity|].
  destruct (String.eqb (jwt_email c) ""); [reflexivity|].
  destruct (String.eqb t ""); reflexivity.
Qed.

(** X15. A review saved at a time later than every stored review of the
    book is the first one [GET /api/reviews/:bookKey] returns afterwards. *)
Theorem review_post_then_get (tok : string) (now : Z) (c : Claims)
    (k : string) (b : ReviewBody) (t : string) (n : Z) (s : Store) :
  jwt_verify tok (JWT_SECRET env_JWT_SECRET) now = Verified c ->
  jwt_email c <> "" ->
  k <> "" ->
  body_text b = Some t ->
  t <> "" ->
  body_rating b = Some n ->
  1 <= n <= 5 ->
  (forall r, In r (reviews s) -> review_bookKey r = k ->
             review_createdAt r < now) ->
  exists older,
    fst (api_reviews_get k
           (snd (api_reviews_post env_JWT_SECRET (Some ("Bearer " +:+ tok))
                   k b now s)))
    = json_reply (PReviews (mkReview k (jwt_email c) (Some n) t now :: older)).
Proof.
  intros Hverify He Hk Htext Ht Hrating Hn Hnewest.
  rewrite (review_post_ok _ k b now s c t n (bearer_admitted _ _ _ Hverify)
             He Hk Htext Ht Hrating Hn).
  cbn [snd]. unfold api_reviews_get, st_catch, st_bind, Review_find_recent,
    st_ret.
  cbn [fst reviews]. rewrite List.filter_app. cbn [List.filter].
  unfold has_bookKey at 2. cbn [review_bookKey]. rewrite String.eqb_refl.
  rewrite sort_desc_newest.
  - eexists. reflexivity.
  - intros r [Hr Hkey]%filter_In. cbn [review_createdAt].
    apply Hnewest; [exact Hr|]. apply String.eqb_eq, Hkey.
Qed.

(** X16. Whatever the request, [POST /api/reviews/:bookKey] leaves the
    accounts and the reading list alone and rewrites no stored review: the
    collection afterwards is the one before, or the one before followed by
    one review that carries the book key of the path, the email of the
    verified token, a non-empty text and a rating from 1 to 5. *)
Theorem review_post_frame (authorization : option string) (k : string)
    (b : ReviewBody) (now : Z) (s : Store) :
  let s' := snd (api_reviews_post env_JWT_SECRET authorization k b now s) in
  base s' = base s
  /\ (reviews s' = reviews s
      \/ exists c doc n,
           auth env_JWT_SECRET authorization now = Next c
           /\ reviews s' = reviews s ++ [doc]
           /\ review_bookKey doc = k
           /\ review_userEmail doc = jwt_email c
           /\ text doc <> ""
           /\ rating doc = Some n /\ 1 <= n <= 5).
Proof.
  cbn zeta. unfold api_reviews_post, guarded_route.
  destruct (auth env_JWT_SECRET authorization now) as [r|c] eqn:Hauth;
    [split; [reflexivity | left; reflexivity]|].
  unfold st_catch, review_post_handler.
  destruct (body_text b) as [t|];
    [|split; [reflexivity | left; reflexivity]].
  destruct (String.eqb_spec t "") as [|Ht];
    [split; [reflexivity | left; reflexivity]|].
  unfold st_bind, Review_create.
  destruct (Review_validate _) as [err|] eqn:Hvalid;
    [split; [reflexivity | left; reflexivity]|].
  cbn [snd base reviews]. split; [reflexivity|]. right.
  unfold Review_validate in Hvalid.
  cbn [review_bookKey review_userEmail text rating] in Hvalid.
  destruct (String.eqb k ""); [discriminate|].
  destruct (String.eqb (jwt_email c) ""); [discriminate|].
  destruct (String.eqb t ""); [discriminate|].
  destruct ((1 <=? rating_or_zero (body_rating b))
            && (rating_or_zero (body_rating b) <=? 5))%bool eqn:Hrange;
    [|discriminate].
  apply andb_true_iff in Hrange.
  exists c, (mkReview k (jwt_email c)
               (Some (rating_or_zero (body_rating b))) t now),
         (rating_or_zero (body_rating b)).
  cbn [review_bookKey review_userEmail text rating].
  repeat split; try assumption; lia.
Qed.

End ReviewProperties.

(** ** The reading list *)

Section ReadingProperties.
Context {bc : Bcrypt} {prims : JwtPrims}.
Variable env_JWT_SECRET : option string.

Import JsString JsStringFacts ListFacts.
Local Open Scope list_scope.

(** What identifies an entry of the reading list. *)
Definition entry_key (i : ReadingItem) : string * string :=
  (userEmail i, bookKey i).

Lemma has_entry_key e k i : has_entry e k i = true <-> entry_key i = (e, k).
Proof.
  unfold has_entry, entry_key. rewrite andb_true_iff, !String.eqb_eq.
  split; [intros [-> ->]; reflexivity | intros [= -> ->]; split; reflexivity].
Qed.

Lemma find_entry_none_not_in e k (l : list ReadingItem) :
  List.find (has_entry e k) l = None -> ~ In (e, k) (map entry_key l).
Proof.
  induction l as [|i l IH]; simpl; [tauto|].
  destruct (has_entry e k i) eqn:Hi; [discriminate|].
  intros Hl [Heq|Hin]; [|exact (IH Hl Hin)].
  apply has_entry_key in Heq. congruence.
Qed.

Lemma not_in_find_entry_none e k (l : list ReadingItem) :
  ~ In (e, k) (map entry_key l) -> List.find (has_entry e k) l = None.
Proof.
  induction l as [|i l IH]; simpl; [reflexivity|].
  intros Hnot. destruct (has_entry e k i) eqn:Hi.
  - apply has_entry_key in Hi. tauto.
  - apply IH. tauto.
Qed.

(** [GET /api/reading] once the guard has admitted the caller. *)
Lemma reading_get_run (authorization : option string) (now : Z) (db : DB)
    (c : Claims) :
  auth env_JWT_SECRET authorization now = Next c ->
  api_reading_get env_JWT_SECRET authorization now db
  = (json_reply
       (PItems (sort_desc item_createdAt
                  (List.filter (has_userEmail (jwt_email c))
                     (readingList db)))), db).
Proof.
  intros Hauth. unfold api_reading_get, guarded_route. rewrite Hauth.
  reflexivity.
Qed.

(** [DELETE /api/reading/:bookKey] once the guard has admitted the
    caller. *)
Lemma reading_delete_run (authorization : option string) (k : string)
    (now : Z) (db : DB) (c : Claims) :
  auth env_JWT_SECRET authorization now = Next c ->
  api_reading_delete env_JWT_SECRET authorization k now db
  = (json_reply PSuccess,
     mkDB (users db)
       (remove_first (has_entry (jwt_email c) k) (readingList db))).
Proof.
  intros Hauth. unfold api_reading_delete, guarded_route. rewrite Hauth.
  reflexivity.
Qed.

(** [POST /api/reading] for a pair that is not in the list yet. *)
Lemma reading_post_fresh (authorization : option string) (b : ReadingBody)
    (k : string) (now : Z) (db : DB) (c : Claims) :
  auth env_JWT_SECRET authorization now = Next c ->
  jwt_email c <> "" ->
  body_bookKey b = Some k ->
  k <> "" ->
  List.find (has_entry (jwt_email c) k) (readingList db) = None ->
  api_reading_post env_JWT_SECRET authorization b now db
  = (json_response
       (BItem (mkReadingItem (jwt_email c) k (body_title b) (body_coverId b)
                 (default [] (body_authors b)) now)),
     mkDB (users db)
       (readingList db ++
        [mkReadingItem (jwt_email c) k (body_title b) (body_coverId b)
           (default [] (body_authors b)) now])).
Proof.
  intros Hauth He%string_eqb_false_iff Hkey Hk%string_eqb_false_iff Hfind.
  unfold api_reading_post, guarded. rewrite Hauth.
  unfold try_catch, reading_post_handler. rewrite Hkey, Hk.
  unfold bind, ReadingList_findOne. rewrite Hfind.
  unfold ReadingList_create. rewrite He, Hk. reflexivity.
Qed.

(** X17. [GET /api/reading] with a token that verifies is answered 200 with
    the caller's entries and no one else's: the list returned is a
    rearrangement of the stored entries whose [userEmail] is the token's
    email, newest first; the database is not changed. *)
Theorem reading_get_own (tok : string) (now : Z) (c : Claims) (db : DB) :
  jwt_verify tok (JWT_SECRET env_JWT_SECRET) now = Verified c ->
  exists items,
    api_reading_get env_JWT_SECRET (Some ("Bearer " +:+ tok)) now db
    = (json_reply (PItems items), db)
    /\ Permutation items
         (List.filter (has_userEmail (jwt_email c)) (readingList db))
    /\ descending item_createdAt items
    /\ (forall i, In i items -> userEmail i = jwt_email c).
Proof.
  intros Hverify. eexists. split.
  - apply reading_get_run, bearer_admitted, Hverify.
  - split; [apply sort_desc_perm|]. split; [apply sort_desc_descending|].
    intros i Hi.
    apply (Permutation_in _ (sort_desc_perm _ _)) in Hi.
    apply filter_In in Hi as [_ Hi]. apply String.eqb_eq, Hi.
Qed.

(** X18. If no two stored entries share both [userEmail] and [bookKey]
    before [POST /api/reading], none do after it, whatever the request. *)
Theorem reading_post_preserves_unique (authorization : option string)
    (b : ReadingBody) (now : Z) (db : DB) :
  List.NoDup (map entry_key (readingList db)) ->
  List.NoDup
    (map entry_key
       (readingList
          (snd (api_reading_post env_JWT_SECRET authorization b now db)))).
Proof.
  intros Hunique. unfold api_reading_post, guarded.
  destruct (auth env_JWT_SECRET authorization now) as [r|c];
    [exact Hunique|].
  unfold try_catch, reading_post_handler.
  destruct (body_bookKey b) as [k|]; [|exact Hunique].
  destruct (String.eqb k "") eqn:Hk; [exact Hunique|].
  unfold bind, ReadingList_findOne.
  destruct (List.find (has_entry (jwt_email c) k) (readingList db))
    as [existing|] eqn:Hfind; [exact Hunique|].
  unfold ReadingList_create.
  destruct (String.eqb (jwt_email c) ""); [exact Hunique|].
  rewrite Hk. unfold ret. cbn [snd readingList]. rewrite map_app. simpl.
  apply NoDup_snoc; [exact Hunique|].
  apply find_entry_none_not_in, Hfind.
Qed.

(** X19. [DELETE /api/reading/:bookKey] with a token that verifies is always
    answered 200 [{ success: true }].  The accounts and every entry of
    another user or another book stay; when the caller has no entry for the
    book nothing changes, and otherwise exactly the first such entry is
    taken out. *)
Theorem reading_delete_first (tok : string) (k : string) (now : Z)
    (c : Claims) (db : DB) :
  jwt_verify tok (JWT_SECRET env_JWT_SECRET) now = Verified c ->
  exists db',
    api_reading_delete env_JWT_SECRET (Some ("Bearer " +:+ tok)) k now db
    = (json_reply PSuccess, db')
    /\ users db' = users db
    /\ List.filter (fun i => negb (has_entry (jwt_email c) k i))
         (readingList db')
       = List.filter (fun i => negb (has_entry (jwt_email c) k i))
           (readingList db)
    /\ match List.find (has_entry (jwt_email c) k) (readingList db) with
       | None => readingList db' = readingList db
       | Some entry =>
           exists before after,
             readingList db = before ++ entry :: after
             /\ readingList db' = before ++ after
             /\ List.find (has_entry (jwt_email c) k) before = None
       end.
Proof.
  intros Hverify. eexists. split.
  - apply reading_delete_run, bearer_admitted, Hverify.
  - cbn [users readingList]. split; [reflexivity|]. split.
    + apply remove_first_others. intros i Hi%negb_true_iff. exact Hi.
    + destruct (List.find (has_entry (jwt_email c) k) (readingList db))
        as [entry|] eqn:Hfind.
      * apply remove_first_some, Hfind.
      * apply remove_first_none, Hfind.
Qed.

(** X20. Adding a book that was not on the caller's list and then deleting
    it gives back the database as it was before the two requests. *)
Theorem reading_post_delete_roundtrip (tok : string) (b : ReadingBody)
    (k : string) (now later : Z) (c : Claims) (db : DB) :
  jwt_verify tok (JWT_SECRET env_JWT_SECRET) now = Verified c ->
  jwt_verify tok (JWT_SECRET env_JWT_SECRET) later = Verified c ->
  jwt_email c <> "" ->
  body_bookKey b = Some k ->
  k <> "" ->
  List.find (has_entry (jwt_email c) k) (readingList db) = None ->
  snd (api_reading_delete env_JWT_SECRET (Some ("Bearer " +:+ tok)) k later
         (snd (api_reading_post env_JWT_SECRET (Some ("Bearer " +:+ tok))
                 b now db)))
  = db.
Proof.
  intros Hnow Hlater He Hkey Hk Hfind.
  rewrite (reading_post_fresh _ b k now db c (bearer_admitted _ _ _ _ Hnow)
             He Hkey Hk Hfind).
  cbn [snd].
  rewrite (reading_delete_run _ k later _ c (bearer_admitted _ _ _ _ Hlater)).
  cbn [snd users readingList].
  rewrite remove_first_app_new; [destruct db; reflexivity | exact Hfind |].
  unfold has_entry. cbn [userEmail bookKey]. rewrite !String.eqb_refl.
  reflexivity.
Qed.

Lemma remove_first_clears e k (l : list ReadingItem) :
  List.NoDup (map entry_key l) ->
  List.find (has_entry e k) (remove_first (has_entry e k) l) = None.
Proof.
  induction l as [|i l IH]; simpl; intros Hunique; [reflexivity|].
  inversion Hunique as [|? ? Hfresh Hrest]; subst.
  destruct (has_entry e k i) eqn:Hi.
  - apply not_in_find_entry_none. apply has_entry_key in Hi.
    rewrite <- Hi. exact Hfresh.
  - simpl. rewrite Hi. apply IH, Hrest.
Qed.

Lemma remove_first_incl {A} (f : A -> bool) (l : list A) (x : A) :
  In x (remove_first f l) -> In x l.
Proof.
  induction l as [|y l IH]; simpl; [tauto|].
  destruct (f y); simpl; [tauto|]. intros [->|Hx]; [tauto|].
  right. apply IH, Hx.
Qed.

Lemma remove_first_keys_unique (f : ReadingItem -> bool)
    (l : list ReadingItem) :
  List.NoDup (map entry_key l) ->
  List.NoDup (map entry_key (remove_first f l)).
Proof.
  induction l as [|i l IH]; simpl; intros Hunique; [constructor|].
  inversion Hunique as [|? ? Hfresh Hrest]; subst.
  destruct (f i); [exact Hrest|]. simpl. constructor; [|apply IH, Hrest].
  intros Hin. apply Hfresh.
  apply in_map_iff in Hin as (j & Hj & Hin).
  apply in_map_iff. exists j. split; [exact Hj|].
  eapply remove_first_incl, Hin.
Qed.

(** X21. When no two stored entries share both [userEmail] and [bookKey],
    a book the caller has deleted can be added again: the [POST] that
    follows the [DELETE] is answered 200 and not 409. *)
Theorem reading_delete_then_post (tok : string) (b : ReadingBody)
    (k : string) (now later : Z) (c : Claims) (db : DB) :
  jwt_verify tok (JWT_SECRET env_JWT_SECRET) now = Verified c ->
  jwt_verify tok (JWT_SECRET env_JWT_SECRET) later = Verified c ->
  jwt_email c <> "" ->
  body_bookKey b = Some k ->
  k <> "" ->
  List.NoDup (map entry_key (readingList db)) ->
  status
    (fst (api_reading_post env_JWT_SECRET (Some ("Bearer " +:+ tok)) b later
            (snd (api_reading_delete env_JWT_SECRET
                    (Some ("Bearer " +:+ tok)) k now db))))
  = 200.
Proof.
  intros Hnow Hlater He Hkey Hk Hunique.
  rewrite (reading_delete_run _ k now db c (bearer_admitted _ _ _ _ Hnow)).
  cbn [snd].
  rewrite (reading_post_fresh _ b k later _ c
             (bearer_admitted _ _ _ _ Hlater) He Hkey Hk);
    [reflexivity|].
  cbn [readingList]. apply remove_first_clears, Hunique.
Qed.

(** X22. If no two stored entries share both [userEmail] and [bookKey]
    before [DELETE /api/reading/:bookKey], none do after it, whatever the
    request. *)
Theorem reading_delete_preserves_unique (authorization : option string)
    (k : string) (now : Z) (db : DB) :
  List.NoDup (map entry_key (readingList db)) ->
  List.NoDup
    (map entry_key
       (readingList
          (snd (api_reading_delete env_JWT_SECRET authorization k now db)))).
Proof.
  intros Hunique. unfold api_reading_delete, guarded_route.
  destruct (auth env_JWT_SECRET authorization now) as [r|c];
    [exact Hunique|].
  cbn [snd st_catch]. unfold st_catch, bind, ReadingList_deleteOne, ret.
  cbn [snd readingList]. apply remove_first_keys_unique, Hunique.
Qed.

End ReadingProperties.

(** ** The search proxy *)

Section SearchProperties.
Variable Data : Type.
Variable openlibrary : gmap string string -> option Data.

(** X23. The parameters sent to the catalogue always carry a non-empty [q]:
    the request's own [q] when it has a non-empty one, in which case the
    parameters are the request's unchanged, and "bestsellers" when [q] is
    missing or empty.  Every other parameter is forwarded as it came. *)
Theorem search_params_default (query : gmap string string) :
  (exists q, search_params query !! "q" = Some q /\ q <> "")
  /\ (forall key, key <> "q" -> search_params query !! key = query !! key)
  /\ (query !! "q" = None \/ query !! "q" = Some "" ->
      search_params query !! "q" = Some "bestsellers")
  /\ (forall q, query !! "q" = Some q -> q <> "" -> search_params query = query).
Proof.
  unfold search_params. repeat split.
  - eexists. split; [apply lookup_insert_eq|].
    destruct (query !! "q") as [v|]; [|discriminate].
    destruct (String.eqb_spec v ""); [discriminate | assumption].
  - intros key Hkey. apply lookup_insert_ne. congruence.
  - intros [-> | ->]; apply lookup_insert_eq.
  - intros q Hq Hne. rewrite Hq.
    apply JsStringFacts.string_eqb_false_iff in Hne. rewrite Hne.
    apply insert_id, Hq.
Qed.

(** X24. A search without [q], or with an empty one, is answered exactly as
    the same search with [q=bestsellers] is, failure included. *)
Theorem search_without_q (query : gmap string string) :
  query !! "q" = None \/ query !! "q" = Some "" ->
  api_books_search Data openlibrary query
  = api_books_search Data openlibrary (<["q" := "bestsellers"]> query).
Proof.
  intros Hq. unfold api_books_search, search_params.
  rewrite lookup_insert_eq. cbn [String.eqb].
  rewrite insert_insert_eq.
  destruct Hq as [-> | ->]; reflexivity.
Qed.

End SearchProperties.

(** ** The seeding script *)

Section SeedProperties.
Context {bc : Bcrypt} {prims : JwtPrims}.
Variable env_JWT_SECRET : option string.

Import JsString JsStringFacts.
Local Open Scope list_scope.

(** The store the script leaves. *)
Definition seeded (rand : nat -> string) (clock : nat -> Z) : Store :=
  mkStore
    (mkDB
       [mkUser "test1@gmail.com" (bcrypt_hash "test123" 10 (rand 0%nat))
          (clock 0%nat);
        mkUser "test2@gmail.com" (bcrypt_hash "test123" 10 (rand 1%nat))
          (clock 1%nat)]
       [mkReadingItem "test1@gmail.com" "/works/OL45804W" (Some "The Hobbit")
          (Some 12345) ["J.R.R. Tolkien"] (clock 3%nat)])
    [mkReview "/works/OL45804W" "test1@gmail.com" (Some 5)
       "Amazing book! Loved the characters." (clock 2%nat);
     mkReview "/works/OL45804W" "test2@gmail.com" (Some 4)
       "Great story and well written." (clock 2%nat)].

Lemma seed_run (rand : nat -> string) (clock : nat -> Z) (s : Store) :
  seedDatabase rand clock s = (true, seeded rand clock).
Proof.
  unfold seedDatabase, st_catch, seed_steps, st_bind, on_base,
    User_deleteMany, Review_deleteMany, ReadingList_deleteMany.
  cbn [base reviews users readingList create_users testUsers].
  unfold st_bind, on_base, User_create.
  cbn [base reviews users readingList String.eqb Ascii.eqb Bool.eqb existsb].
  assert (String.eqb (bcrypt_hash "test123" 10 (rand 0%nat)) "" = false) as ->
    by apply string_eqb_false_iff, bcrypt_hash_nonempty.
  cbn [base reviews users readingList app existsb has_email email orb].
  assert (String.eqb (bcrypt_hash "test123" 10 (rand 1%nat)) "" = false) as ->
    by apply string_eqb_false_iff, bcrypt_hash_nonempty.
  reflexivity.
Qed.

(** X25. The seeding script always runs to its end, and what it leaves does
    not depend on what was stored before: exactly the two test accounts,
    with [bcrypt.hash("test123", 10)] as hashes, the two test reviews and the
    one test reading-list entry. *)
Theorem seed_resets (rand : nat -> string) (clock : nat -> Z) (s : Store) :
  seedDatabase rand clock s
  = (true,
     mkStore
       (mkDB
          [mkUser "test1@gmail.com" (bcrypt_hash "test123" 10 (rand 0%nat))
             (clock 0%nat);
           mkUser "test2@gmail.com" (bcrypt_hash "test123" 10 (rand 1%nat))
             (clock 1%nat)]
          [mkReadingItem "test1@gmail.com" "/works/OL45804W"
             (Some "The Hobbit") (Some 12345) ["J.R.R. Tolkien"]
             (clock 3%nat)])
       [mkReview "/works/OL45804W" "test1@gmail.com" (Some 5)
          "Amazing book! Loved the characters." (clock 2%nat);
        mkReview "/works/OL45804W" "test2@gmail.com" (Some 4)
          "Great story and well written." (clock 2%nat)]).
Proof. apply seed_run. Qed.

(** X26. After seeding, each test account logs in through
    [POST /api/login] with the password the script prints: the answer is 200
    with a token for that email, and the login writes nothing. *)
Theorem seed_accounts_login (rand : nat -> string) (clock : nat -> Z)
    (s : Store) (e p : string) (salt : string) (now : Z) :
  In (e, p) testUsers ->
  let db := base (snd (seedDatabase rand clock s)) in
  api_login env_JWT_SECRET (mkLoginBody (JStr e) (JStr p)) salt now db
  = (json_response
       (BToken (jwt_sign e (JWT_SECRET env_JWT_SECRET) seven_days now) e),
     db).
Proof.
  intros Hin db. subst db. rewrite seed_run. cbn [snd base seeded].
  destruct Hin as [[= <- <-] | [[= <- <-] | []]].
  - rewrite (login_authenticate_run env_JWT_SECRET "test1@gmail.com" "test123"
               salt now _
               (mkUser "test1@gmail.com"
                  (bcrypt_hash "test123" 10 (rand 0%nat)) (clock 0%nat)))
      by (first [reflexivity | discriminate]).
    cbn [passwordHash]. rewrite bcrypt_compare_hash. reflexivity.
  - rewrite (login_authenticate_run env_JWT_SECRET "test2@gmail.com" "test123"
               salt now _
               (mkUser "test2@gmail.com"
                  (bcrypt_hash "test123" 10 (rand 1%nat)) (clock 1%nat)))
      by (first [reflexivity | discriminate]).
    cbn [passwordHash]. rewrite bcrypt_compare_hash. reflexivity.
Qed.

(** X27. After seeding, the first test user already has the seeded book on
    the reading list: adding it again with a token for that user is
    answered 409 and changes nothing. *)
Theorem seed_reading_conflict (rand : nat -> string) (clock : nat -> Z)
    (s : Store) (tok : string) (now : Z) (c : Claims) (b : ReadingBody) :
  jwt_verify tok (JWT_SECRET env_JWT_SECRET) now = Verified c ->
  jwt_email c = "test1@gmail.com" ->
  body_bookKey b = Some "/works/OL45804W" ->
  let db := base (snd (seedDatabase rand clock s)) in
  api_reading_post env_JWT_SECRET (Some ("Bearer " +:+ tok)) b now db
  = (error_response 409 "Already in reading list", db).
Proof.
  intros Hverify Hmail Hkey db. subst db. rewrite seed_run.
  cbn [snd base seeded].
  unfold api_reading_post, guarded.
  rewrite (bearer_admitted env_JWT_SECRET tok now c Hverify).
  unfold try_catch, reading_post_handler. rewrite Hkey, Hmail. reflexivity.
Qed.

End SeedProperties.

(** ** The endpoints run on concrete requests

    The scenario of the specification, with the executable instance:
    "a@gmail.com" registers with password "x" at time 5000 on an empty
    database under the fallback secret, and then uses the token it was
    given. *)

Module Scenario.
Import JsString JsStringFacts Toy.

Definition alice : string := "a@gmail.com".

Definition alice_account : User := mkUser alice (bcrypt_hash "x" 10 "salt") 5000.

Definition empty_db : DB := mkDB [] [].

Definition db1 : DB := mkDB [alice_account] [].

Definition alice_token : string := jwt_sign alice "devsecret" seven_days 5000.

Definition alice_claims : Claims := mkClaims alice 5 604805.

Definition hobbit : ReadingBody :=
  mkReadingBody (Some "/works/OL45804W") (Some "The Hobbit") (Some 12345)
    (Some ["J.R.R. Tolkien"]).

(** [alice_token] with its signature replaced. *)
Definition forged_token : string :=
  jwt_header +:+ "." +:+ encode_claims alice_claims +:+ "." +:+ "AAAA".

Example secret_fallback : JWT_SECRET None = "devsecret".
Proof. reflexivity. Qed.

Example register_alice :
  api_login None (mkLoginBody (JStr alice) (JStr "x")) "salt" 5000 empty_db
  = (json_response (BToken alice_token alice), db1).
Proof. vm_compute. reflexivity. Qed.

Example alice_token_verifies :
  jwt_verify alice_token "devsecret" 9000 = Verified alice_claims.
Proof. vm_compute. reflexivity. Qed.

Example alice_token_expires :
  jwt_verify alice_token "devsecret" (604805 * 1000) = InvalidToken.
Proof. vm_compute. reflexivity. Qed.

Example number_as_email :
  api_login None (mkLoginBody (JNum 5) (JStr "x")) "salt" 5000 empty_db
  = (error_response 500 "Operation failed", empty_db).
Proof. vm_compute. reflexivity. Qed.

Example double_space_header :
  auth None (Some ("Bearer  " +:+ alice_token)) 9000
  = Rejected (error_response 401 "Invalid token").
Proof. vm_compute. reflexivity. Qed.

Example reading_twice :
  let first :=
    api_reading_post None (Some ("Bearer " +:+ alice_token)) hobbit 9000 db1 in
  status (fst first) = 200
  /\ api_reading_post None (Some ("Bearer " +:+ alice_token)) hobbit 9500
       (snd first)
     = (error_response 409 "Already in reading list", snd first).
Proof. vm_compute. split; reflexivity. Qed.

Lemma login_rejects_other_domains_witness :
  truthy (JStr "bob@yahoo.com") = true
  /\ truthy (JStr "x") = true
  /\ endsWith "bob@yahoo.com" "@gmail.com" = false
  /\ api_login None (mkLoginBody (JStr "bob@yahoo.com") (JStr "x"))
       "salt" 5000 db1
     = (error_response 400 "Only Gmail accounts are allowed", db1).
Proof.
  assert (H1 : truthy (JStr "bob@yahoo.com") = true) by reflexivity.
  assert (H2 : truthy (JStr "x") = true) by reflexivity.
  assert (H3 : endsWith "bob@yahoo.com" "@gmail.com" = false) by reflexivity.
  exact (conj H1 (conj H2 (conj H3
    (login_rejects_other_domains None "bob@yahoo.com" (JStr "x") "salt" 5000
       db1 H1 H2 H3)))).
Defined.

Lemma login_registers_unseen_email_witness :
  endsWith alice "@gmail.com" = true
  /\ "x" <> ""
  /\ fst (User_findOne alice empty_db) = Ret None
  /\ api_login None (mkLoginBody (JStr alice) (JStr "x")) "salt" 5000 empty_db
     = (json_response (BToken alice_token alice), db1)
  /\ List.filter (has_email alice) (users db1) = [alice_account].
Proof.
  assert (H1 : endsWith alice "@gmail.com" = true) by reflexivity.
  assert (H2 : "x" <> "") by discriminate.
  assert (H3 : fst (User_findOne alice empty_db) = Ret None) by reflexivity.
  exact (conj H1 (conj H2 (conj H3
    (login_registers_unseen_email None alice "x" "salt" 5000 empty_db
       H1 H2 H3)))).
Defined.

Lemma login_existing_correct_password_witness :
  endsWith alice "@gmail.com" = true
  /\ "x" <> ""
  /\ fst (User_findOne alice db1) = Ret (Some alice_account)
  /\ bcrypt_compare "x" (passwordHash alice_account) = true
  /\ api_login None (mkLoginBody (JStr alice) (JStr "x")) "pepper" 9000 db1
     = (json_response
          (BToken (jwt_sign alice "devsecret" seven_days 9000) alice), db1).
Proof.
  assert (H1 : endsWith alice "@gmail.com" = true) by reflexivity.
  assert (H2 : "x" <> "") by discriminate.
  assert (H3 : fst (User_findOne alice db1) = Ret (Some alice_account))
    by reflexivity.
  assert (H4 : bcrypt_compare "x" (passwordHash alice_account) = true)
    by reflexivity.
  exact (conj H1 (conj H2 (conj H3 (conj H4
    (proj1 (login_existing_correct_password None alice "x" "pepper" 9000 db1
              alice_account H1 H2 H3 H4)))))).
Defined.

Lemma login_existing_wrong_password_witness :
  endsWith alice "@gmail.com" = true
  /\ "wrong" <> ""
  /\ fst (User_findOne alice db1) = Ret (Some alice_account)
  /\ bcrypt_compare "wrong" (passwordHash alice_account) = false
  /\ api_login None (mkLoginBody (JStr alice) (JStr "wrong")) "pepper" 9000 db1
     = (error_response 401 "Incorrect password", db1).
Proof.
  assert (H1 : endsWith alice "@gmail.com" = true) by reflexivity.
  assert (H2 : "wrong" <> "") by discriminate.
  assert (H3 : fst (User_findOne alice db1) = Ret (Some alice_account))
    by reflexivity.
  assert (H4 : bcrypt_compare "wrong" (passwordHash alice_account) = false)
    by reflexivity.
  exact (conj H1 (conj H2 (conj H3 (conj H4
    (login_existing_wrong_password None alice "wrong" "pepper" 9000 db1
       alice_account H1 H2 H3 H4))))).
Defined.

Lemma issue_verify_roundtrip_witness :
  5000 / 1000 < 5000 / 1000 + seven_days
  /\ exists decoded,
       jwt_verify alice_token "devsecret" 5000 = Verified decoded
       /\ jwt_email decoded = alice
       /\ exp decoded = 5000 / 1000 + seven_days.
Proof.
  assert (H1 : 5000 / 1000 < 5000 / 1000 + seven_days) by reflexivity.
  exact (conj H1 (issue_verify_roundtrip alice "devsecret" 5000 5000 H1)).
Defined.

Lemma jwt_verify_rejects_witness :
  split "." forged_token = [jwt_header; encode_claims alice_claims; "AAAA"]
  /\ "AAAA" <> hmac_sha256 "devsecret"
                 (jwt_header +:+ "." +:+ encode_claims alice_claims)
  /\ jwt_verify forged_token "devsecret" 9000 = InvalidToken.
Proof.
  assert (H1 : split "." forged_token
               = [jwt_header; encode_claims alice_claims; "AAAA"])
    by (vm_compute; reflexivity).
  assert (H2 : "AAAA" <> hmac_sha256 "devsecret"
                 (jwt_header +:+ "." +:+ encode_claims alice_claims))
    by (vm_compute; discriminate).
  exact (conj H1 (conj H2
    (proj1 (jwt_verify_rejects forged_token "devsecret" 9000 _ _ _ H1
              (or_introl H2))))).
Defined.

Lemma access_guard_witness :
  jwt_verify alice_token (JWT_SECRET None) 9000 = Verified alice_claims
  /\ guarded None None 9000
       (fun user => try_catch (me_handler user) "Failed to fetch profile") db1
     = (error_response 401 "No token", db1)
  /\ auth None (Some ("Bearer " +:+ alice_token)) 9000 = Next alice_claims.
Proof.
  assert (H1 : jwt_verify alice_token (JWT_SECRET None) 9000
               = Verified alice_claims) by (vm_compute; reflexivity).
  pose proof (access_guard None
                (fun user => try_catch (me_handler user)
                               "Failed to fetch profile")
                db1 9000 alice_token alice_claims H1) as (_ & H2 & H3 & _).
  exact (conj H1 (conj H2 H3)).
Defined.

Lemma me_omits_hash_witness :
  jwt_verify alice_token (JWT_SECRET None) 9000 = Verified alice_claims
  /\ fst (User_findOne (jwt_email alice_claims) db1) = Ret (Some alice_account)
  /\ exists doc,
       api_me None (Some ("Bearer " +:+ alice_token)) 9000 db1
       = (mkResponse 200 (BUser doc), db1)
       /\ doc !! "passwordHash" = None
       /\ doc !! "email" = Some (JStr alice)
       /\ doc !! "createdAt" = Some (JNum 5000).
Proof.
  assert (H1 : jwt_verify alice_token (JWT_SECRET None) 9000
               = Verified alice_claims) by (vm_compute; reflexivity).
  assert (H2 : fst (User_findOne (jwt_email alice_claims) db1)
               = Ret (Some alice_account)) by reflexivity.
  exact (conj H1 (conj H2
    (me_omits_hash None alice_token 9000 alice_claims db1 alice_account
       H1 H2))).
Defined.

Lemma reading_insert_unique_witness :
  jwt_verify alice_token (JWT_SECRET None) 9000 = Verified alice_claims
  /\ jwt_email alice_claims <> ""
  /\ body_bookKey hobbit = Some "/works/OL45804W"
  /\ "/works/OL45804W" <> ""
  /\ api_reading_post None (Some ("Bearer " +:+ alice_token)) hobbit 9000 db1
     = (json_response
          (BItem (mkReadingItem alice "/works/OL45804W" (Some "The Hobbit")
                    (Some 12345) ["J.R.R. Tolkien"] 9000)),
        mkDB [alice_account]
          [mkReadingItem alice "/works/OL45804W" (Some "The Hobbit")
             (Some 12345) ["J.R.R. Tolkien"] 9000]).
Proof.
  assert (H1 : jwt_verify alice_token (JWT_SECRET None) 9000
               = Verified alice_claims) by (vm_compute; reflexivity).
  assert (H2 : jwt_email alice_claims <> "") by discriminate.
  assert (H3 : body_bookKey hobbit = Some "/works/OL45804W") by reflexivity.
  assert (H4 : "/works/OL45804W" <> "") by discriminate.
  exact (conj H1 (conj H2 (conj H3 (conj H4
    (reading_insert_unique None alice_token 9000 alice_claims hobbit
       "/works/OL45804W" db1 H1 H2 H3 H4))))).
Defined.

Lemma auth_ignores_scheme_witness :
  all_chars (not_char " ") "Basic" = true
  /\ jwt_verify alice_token (JWT_SECRET None) 9000 = Verified alice_claims
  /\ auth None (Some ("Basic" +:+ " " +:+ alice_token)) 9000 = Next alice_claims
  /\ auth None (Some alice_token) 9000
     = Rejected (error_response 401 "Invalid token").
Proof.
  assert (H1 : all_chars (not_char " ") "Basic" = true) by reflexivity.
  assert (H2 : jwt_verify alice_token (JWT_SECRET None) 9000
               = Verified alice_claims) by (vm_compute; reflexivity).
  exact (conj H1 (conj H2
    (auth_ignores_scheme None "Basic" alice_token 9000 alice_claims H1 H2))).
Defined.

End Scenario.

(** ** The remaining routes run on concrete requests *)

Module MoreScenarios.
Import JsString JsStringFacts ListFacts Toy Scenario.
Local Open Scope list_scope.

Definition bob_body : LoginBody := mkLoginBody (JStr "bob@gmail.com") (JStr "y").

Definition alice_body : LoginBody := mkLoginBody (JStr alice) (JStr "x").

Definition second_token : string := jwt_sign alice "devsecret" seven_days 9000.

Definition hobbit_item : ReadingItem :=
  mkReadingItem alice "/works/OL45804W" (Some "The Hobbit") (Some 12345)
    ["J.R.R. Tolkien"] 9000.

Definition db2 : DB := mkDB [alice_account] [hobbit_item].

Definition store1 : Store := mkStore db1 [].

Definition praise : ReviewBody := mkReviewBody (Some 5) (Some "Great").

Definition unrated : ReviewBody := mkReviewBody None (Some "Great").

Definition praise_review : Review :=
  mkReview "/works/OL45804W" alice (Some 5) "Great" 9000.

(** A catalogue that answers with the [q] it was asked for. *)
Definition echo_catalogue (params : gmap string string) : option string :=
  params !! "q".

Definition test1_token : string :=
  jwt_sign "test1@gmail.com" "devsecret" seven_days 5000.

Definition test1_claims : Claims := mkClaims "test1@gmail.com" 5 604805.

Definition fixed_salt (i : nat) : string := "salt".

Definition tick (i : nat) : Z := Z.of_nat i.

Example unrated_review_fails :
  api_reviews_post None (Some ("Bearer " +:+ alice_token))
    "/works/OL45804W" unrated 9000 store1
  = (error_reply 500 "Failed to save review", store1).
Proof. vm_compute. reflexivity. Qed.

Example search_default :
  api_books_search string echo_catalogue ∅ = SearchData "bestsellers".
Proof. vm_compute. reflexivity. Qed.

Lemma login_missing_field_witness :
  (truthy (body_email (mkLoginBody (JStr "") (JStr "x"))) = false
   \/ truthy (body_password (mkLoginBody (JStr "") (JStr "x"))) = false)
  /\ api_login None (mkLoginBody (JStr "") (JStr "x")) "salt" 5000 db1
     = (error_response 400 "Missing email or password", db1).
Proof.
  assert (H1 : truthy (body_email (mkLoginBody (JStr "") (JStr "x"))) = false
               \/ truthy (body_password (mkLoginBody (JStr "") (JStr "x")))
                  = false) by (left; reflexivity).
  exact (conj H1 (login_missing_field None _ "salt" 5000 db1 H1)).
Defined.

Lemma login_type_error_witness :
  truthy (JNum 5) = true
  /\ truthy (JStr "x") = true
  /\ (forall e, JNum 5 <> JStr e)
  /\ api_login None (mkLoginBody (JNum 5) (JStr "x")) "salt" 5000 db1
     = (error_response 500 "Operation failed", db1).
Proof.
  assert (H1 : truthy (JNum 5) = true) by reflexivity.
  assert (H2 : truthy (JStr "x") = true) by reflexivity.
  assert (H3 : forall e, JNum 5 <> JStr e) by discriminate.
  exact (conj H1 (conj H2 (conj H3
    (login_type_error None (mkLoginBody (JNum 5) (JStr "x")) "salt" 5000 db1
       H1 H2 (or_introl H3))))).
Defined.

Lemma login_preserves_unique_emails_witness :
  List.NoDup (map email (users db1))
  /\ List.NoDup
       (map email (users (snd (api_login None bob_body "salt" 9000 db1)))).
Proof.
  assert (H1 : List.NoDup (map email (users db1)))
    by (repeat constructor; simpl; tauto).
  exact (conj H1
    (login_preserves_unique_emails None bob_body "salt" 9000 db1 H1)).
Defined.

Lemma login_preserves_domain_policy_witness :
  List.Forall (fun u => endsWith (email u) "@gmail.com" = true) (users db1)
  /\ List.Forall (fun u => endsWith (email u) "@gmail.com" = true)
       (users (snd (api_login None bob_body "salt" 9000 db1))).
Proof.
  assert (H1 : List.Forall
                 (fun u => endsWith (email u) "@gmail.com" = true)
                 (users db1)) by (repeat constructor).
  exact (conj H1
    (login_preserves_domain_policy None bob_body "salt" 9000 db1 H1)).
Defined.

Lemma login_success_sound_witness :
  api_login None alice_body "pepper" 9000 db1
  = (json_response (BToken second_token alice), db1)
  /\ status (json_response (BToken second_token alice)) = 200
  /\ exists e p account,
       body_email alice_body = JStr e
       /\ body_password alice_body = JStr p
       /\ endsWith e "@gmail.com" = true
       /\ body (json_response (BToken second_token alice))
          = BToken (jwt_sign e (JWT_SECRET None) seven_days 9000) e
       /\ List.find (has_email e) (users db1) = Some account
       /\ bcrypt_compare p (passwordHash account) = true.
Proof.
  assert (H1 : api_login None alice_body "pepper" 9000 db1
               = (json_response (BToken second_token alice), db1))
    by (vm_compute; reflexivity).
  assert (H2 : status (json_response (BToken second_token alice)) = 200)
    by reflexivity.
  exact (conj H1 (conj H2
    (login_success_sound None alice_body "pepper" 9000 db1 _ db1 H1 H2))).
Defined.

Lemma login_token_session_witness :
  api_login None alice_body "pepper" 9000 db1
  = (json_response (BToken second_token alice), db1)
  /\ auth None (Some ("Bearer " +:+ second_token)) 20000
     = Next (mkClaims alice 9 604809)
  /\ auth None (Some ("Bearer " +:+ second_token)) 604809000
     = Rejected (error_response 401 "Invalid token").
Proof.
  assert (H1 : api_login None alice_body "pepper" 9000 db1
               = (json_response (BToken second_token alice), db1))
    by (vm_compute; reflexivity).
  exact (conj H1 (conj
    (login_token_session None alice_body "pepper" 9000 db1 second_token alice
       db1 20000 H1)
    (login_token_session None alice_body "pepper" 9000 db1 second_token alice
       db1 604809000 H1))).
Defined.

Lemma login_twice_witness :
  endsWith alice "@gmail.com" = true
  /\ "x" <> ""
  /\ List.find (has_email alice) (users empty_db) = None
  /\ api_login None alice_body "pepper" 9000
       (snd (api_login None alice_body "salt" 5000 empty_db))
     = (json_response (BToken second_token alice),
        snd (api_login None alice_body "salt" 5000 empty_db)).
Proof.
  assert (H1 : endsWith alice "@gmail.com" = true) by reflexivity.
  assert (H2 : "x" <> "") by discriminate.
  assert (H3 : List.find (has_email alice) (users empty_db) = None)
    by reflexivity.
  exact (conj H1 (conj H2 (conj H3
    (login_twice None alice "x" "salt" "pepper" 5000 9000 empty_db
       H1 H2 H3)))).
Defined.

Lemma login_then_me_witness :
  api_login None alice_body "pepper" 9000 db1
  = (json_response (BToken second_token alice), db1)
  /\ 20000 / 1000 < 9000 / 1000 + seven_days
  /\ exists doc,
       api_me None (Some ("Bearer " +:+ second_token)) 20000 db1
       = (mkResponse 200 (BUser doc), db1)
       /\ doc !! "email" = Some (JStr alice)
       /\ doc !! "passwordHash" = None.
Proof.
  assert (H1 : api_login None alice_body "pepper" 9000 db1
               = (json_response (BToken second_token alice), db1))
    by (vm_compute; reflexivity).
  assert (H2 : 20000 / 1000 < 9000 / 1000 + seven_days) by reflexivity.
  exact (conj H1 (conj H2
    (login_then_me None alice_body "pepper" 9000 db1 second_token alice db1
       20000 H1 H2))).
Defined.

Lemma auth_ignores_trailing_pieces_witness :
  all_chars (not_char " ") "Bearer" = true
  /\ jwt_verify alice_token (JWT_SECRET None) 9000 = Verified alice_claims
  /\ auth None (Some ("Bearer" +:+ " " +:+ alice_token +:+ " " +:+ "junk"))
       9000
     = Next alice_claims.
Proof.
  assert (H1 : all_chars (not_char " ") "Bearer" = true) by reflexivity.
  assert (H2 : jwt_verify alice_token (JWT_SECRET None) 9000
               = Verified alice_claims) by (vm_compute; reflexivity).
  exact (conj H1 (conj H2
    (auth_ignores_trailing_pieces None "Bearer" alice_token "junk" 9000
       alice_claims H1 H2))).
Defined.

Lemma auth_double_space_witness :
  all_chars (not_char " ") "Bearer" = true
  /\ auth None (Some ("Bearer" +:+ "  " +:+ alice_token)) 9000
     = Rejected (error_response 401 "Invalid token").
Proof.
  assert (H1 : all_chars (not_char " ") "Bearer" = true) by reflexivity.
  exact (conj H1 (auth_double_space None "Bearer" alice_token 9000 H1)).
Defined.

Lemma review_post_saved_witness :
  jwt_verify alice_token (JWT_SECRET None) 9000 = Verified alice_claims
  /\ jwt_email alice_claims <> ""
  /\ "/works/OL45804W" <> ""
  /\ body_text praise = Some "Great"
  /\ "Great" <> ""
  /\ body_rating praise = Some 5
  /\ 1 <= 5 <= 5
  /\ api_reviews_post None (Some ("Bearer " +:+ alice_token))
       "/works/OL45804W" praise 9000 store1
     = (json_reply (PReview praise_review), mkStore db1 [praise_review]).
Proof.
  assert (H1 : jwt_verify alice_token (JWT_SECRET None) 9000
               = Verified alice_claims) by (vm_compute; reflexivity).
  assert (H2 : jwt_email alice_claims <> "") by discriminate.
  assert (H3 : "/works/OL45804W" <> "") by discriminate.
  assert (H4 : body_text praise = Some "Great") by reflexivity.
  assert (H5 : "Great" <> "") by discriminate.
  assert (H6 : body_rating praise = Some 5) by reflexivity.
  assert (H7 : 1 <= 5 <= 5) by lia.
  exact (conj H1 (conj H2 (conj H3 (conj H4 (conj H5 (conj H6 (conj H7
    (review_post_saved None alice_token 9000 alice_claims "/works/OL45804W"
       praise "Great" 5 store1 H1 H2 H3 H4 H5 H6 H7)))))))).
Defined.

Lemma review_post_rating_rejected_witness :
  jwt_verify alice_token (JWT_SECRET None) 9000 = Verified alice_claims
  /\ body_text unrated = Some "Great"
  /\ "Great" <> ""
  /\ body_rating unrated = None
  /\ api_reviews_post None (Some ("Bearer " +:+ alice_token))
       "/works/OL45804W" unrated 9000 store1
     = (error_reply 500 "Failed to save review", store1).
Proof.
  assert (H1 : jwt_verify alice_token (JWT_SECRET None) 9000
               = Verified alice_claims) by (vm_compute; reflexivity).
  assert (H2 : body_text unrated = Some "Great") by reflexivity.
  assert (H3 : "Great" <> "") by discriminate.
  assert (H4 : body_rating unrated = None) by reflexivity.
  exact (conj H1 (conj H2 (conj H3 (conj H4
    (review_post_rating_rejected None alice_token 9000 alice_claims
       "/works/OL45804W" unrated "Great" store1 H1 H2 H3
       (or_introl H4)))))).
Defined.

Lemma review_post_then_get_witness :
  jwt_verify alice_token (JWT_SECRET None) 9000 = Verified alice_claims
  /\ (forall r, In r (reviews store1) ->
                review_bookKey r = "/works/OL45804W" ->
                review_createdAt r < 9000)
  /\ exists older,
       fst (api_reviews_get "/works/OL45804W"
              (snd (api_reviews_post None (Some ("Bearer " +:+ alice_token))
                      "/works/OL45804W" praise 9000 store1)))
       = json_reply (PReviews (praise_review :: older)).
Proof.
  assert (H1 : jwt_verify alice_token (JWT_SECRET None) 9000
               = Verified alice_claims) by (vm_compute; reflexivity).
  assert (H2 : jwt_email alice_claims <> "") by discriminate.
  assert (H3 : "/works/OL45804W" <> "") by discriminate.
  assert (H4 : body_text praise = Some "Great") by reflexivity.
  assert (H5 : "Great" <> "") by discriminate.
  assert (H6 : body_rating praise = Some 5) by reflexivity.
  assert (H7 : 1 <= 5 <= 5) by lia.
  assert (H8 : forall r, In r (reviews store1) ->
                         review_bookKey r = "/works/OL45804W" ->
                         review_createdAt r < 9000) by (intros r []).
  exact (conj H1 (conj H8
    (review_post_then_get None alice_token 9000 alice_claims
       "/works/OL45804W" praise "Great" 5 store1 H1 H2 H3 H4 H5 H6 H7 H8))).
Defined.

Lemma reading_get_own_witness :
  jwt_verify alice_token (JWT_SECRET None) 9500 = Verified alice_claims
  /\ exists items,
       api_reading_get None (Some ("Bearer " +:+ alice_token)) 9500 db2
       = (json_reply (PItems items), db2)
       /\ Permutation items
            (List.filter (has_userEmail (jwt_email alice_claims))
               (readingList db2))
       /\ descending item_createdAt items
       /\ (forall i, In i items -> userEmail i = jwt_email alice_claims).
Proof.
  assert (H1 : jwt_verify alice_token (JWT_SECRET None) 9500
               = Verified alice_claims) by (vm_compute; reflexivity).
  exact (conj H1
    (reading_get_own None alice_token 9500 alice_claims db2 H1)).
Defined.

Lemma reading_post_preserves_unique_witness :
  List.NoDup (map entry_key (readingList db2))
  /\ List.NoDup
       (map entry_key
          (readingList
             (snd (api_reading_post None (Some ("Bearer " +:+ alice_token))
                     hobbit 9500 db2)))).
Proof.
  assert (H1 : List.NoDup (map entry_key (readingList db2)))
    by (repeat constructor; simpl; tauto).
  exact (conj H1
    (reading_post_preserves_unique None (Some ("Bearer " +:+ alice_token))
       hobbit 9500 db2 H1)).
Defined.

Lemma reading_delete_first_witness :
  jwt_verify alice_token (JWT_SECRET None) 9500 = Verified alice_claims
  /\ exists db',
       api_reading_delete None (Some ("Bearer " +:+ alice_token))
         "/works/OL45804W" 9500 db2
       = (json_reply PSuccess, db')
       /\ users db' = users db2.
Proof.
  assert (H1 : jwt_verify alice_token (JWT_SECRET None) 9500
               = Verified alice_claims) by (vm_compute; reflexivity).
  destruct (reading_delete_first None alice_token "/works/OL45804W" 9500
              alice_claims db2 H1) as (db' & Hrun & Husers & _).
  exact (conj H1 (ex_intro _ db' (conj Hrun Husers))).
Defined.

Lemma reading_post_delete_roundtrip_witness :
  jwt_verify alice_token (JWT_SECRET None) 9000 = Verified alice_claims
  /\ jwt_verify alice_token (JWT_SECRET None) 9500 = Verified alice_claims
  /\ jwt_email alice_claims <> ""
  /\ body_bookKey hobbit = Some "/works/OL45804W"
  /\ "/works/OL45804W" <> ""
  /\ List.find (has_entry (jwt_email alice_claims) "/works/OL45804W")
       (readingList db1) = None
  /\ snd (api_reading_delete None (Some ("Bearer " +:+ alice_token))
            "/works/OL45804W" 9500
            (snd (api_reading_post None (Some ("Bearer " +:+ alice_token))
                    hobbit 9000 db1)))
     = db1.
Proof.
  assert (H1 : jwt_verify alice_token (JWT_SECRET None) 9000
               = Verified alice_claims) by (vm_compute; reflexivity).
  assert (H2 : jwt_verify alice_token (JWT_SECRET None) 9500
               = Verified alice_claims) by (vm_compute; reflexivity).
  assert (H3 : jwt_email alice_claims <> "") by discriminate.
  assert (H4 : body_bookKey hobbit = Some "/works/OL45804W") by reflexivity.
  assert (H5 : "/works/OL45804W" <> "") by discriminate.
  assert (H6 : List.find
                 (has_entry (jwt_email alice_claims) "/works/OL45804W")
                 (readingList db1) = None) by reflexivity.
  exact (conj H1 (conj H2 (conj H3 (conj H4 (conj H5 (conj H6
    (reading_post_delete_roundtrip None alice_token hobbit "/works/OL45804W"
       9000 9500 alice_claims db1 H1 H2 H3 H4 H5 H6))))))).
Defined.

Lemma reading_delete_then_post_witness :
  jwt_verify alice_token (JWT_SECRET None) 9500 = Verified alice_claims
  /\ jwt_verify alice_token (JWT_SECRET None) 9900 = Verified alice_claims
  /\ jwt_email alice_claims <> ""
  /\ body_bookKey hobbit = Some "/works/OL45804W"
  /\ "/works/OL45804W" <> ""
  /\ List.NoDup (map entry_key (readingList db2))
  /\ status
       (fst (api_reading_post None (Some ("Bearer " +:+ alice_token)) hobbit
               9900
               (snd (api_reading_delete None
                       (Some ("Bearer " +:+ alice_token))
                       "/works/OL45804W" 9500 db2))))
     = 200.
Proof.
  assert (H1 : jwt_verify alice_token (JWT_SECRET None) 9500
               = Verified alice_claims) by (vm_compute; reflexivity).
  assert (H2 : jwt_verify alice_token (JWT_SECRET None) 9900
               = Verified alice_claims) by (vm_compute; reflexivity).
  assert (H3 : jwt_email alice_claims <> "") by discriminate.
  assert (H4 : body_bookKey hobbit = Some "/works/OL45804W") by reflexivity.
  assert (H5 : "/works/OL45804W" <> "") by discriminate.
  assert (H6 : List.NoDup (map entry_key (readingList db2)))
    by (repeat constructor; simpl; tauto).
  exact (conj H1 (conj H2 (conj H3 (conj H4 (conj H5 (conj H6
    (reading_delete_then_post None alice_token hobbit "/works/OL45804W"
       9500 9900 alice_claims db2 H1 H2 H3 H4 H5 H6))))))).
Defined.

Lemma reading_delete_preserves_unique_witness :
  List.NoDup (map entry_key (readingList db2))
  /\ List.NoDup
       (map entry_key
          (readingList
             (snd (api_reading_delete None (Some ("Bearer " +:+ alice_token))
                     "/works/OL45804W" 9500 db2)))).
Proof.
  assert (H1 : List.NoDup (map entry_key (readingList db2)))
    by (repeat constructor; simpl; tauto).
  exact (conj H1
    (reading_delete_preserves_unique None (Some ("Bearer " +:+ alice_token))
       "/works/OL45804W" 9500 db2 H1)).
Defined.

Lemma search_without_q_witness :
  ((∅ : gmap string string) !! "q" = None
   \/ (∅ : gmap string string) !! "q" = Some "")
  /\ api_books_search string echo_catalogue ∅
     = api_books_search string echo_catalogue (<["q" := "bestsellers"]> ∅).
Proof.
  assert (H1 : (∅ : gmap string string) !! "q" = None
               \/ (∅ : gmap string string) !! "q" = Some "")
    by (left; reflexivity).
  exact (conj H1 (search_without_q string echo_catalogue ∅ H1)).
Defined.

Lemma seed_accounts_login_witness :
  In ("test2@gmail.com", "test123") testUsers
  /\ api_login None (mkLoginBody (JStr "test2@gmail.com") (JStr "test123"))
       "pepper" 9000 (base (snd (seedDatabase fixed_salt tick store1)))
     = (json_response
          (BToken (jwt_sign "test2@gmail.com" (JWT_SECRET None) seven_days
                     9000) "test2@gmail.com"),
        base (snd (seedDatabase fixed_salt tick store1))).
Proof.
  assert (H1 : In ("test2@gmail.com", "test123") testUsers)
    by (right; left; reflexivity).
  exact (conj H1
    (seed_accounts_login None fixed_salt tick store1 "test2@gmail.com"
       "test123" "pepper" 9000 H1)).
Defined.

Lemma seed_reading_conflict_witness :
  jwt_verify test1_token (JWT_SECRET None) 9000 = Verified test1_claims
  /\ jwt_email test1_claims = "test1@gmail.com"
  /\ body_bookKey hobbit = Some "/works/OL45804W"
  /\ api_reading_post None (Some ("Bearer " +:+ test1_token)) hobbit 9000
       (base (snd (seedDatabase fixed_salt tick store1)))
     = (error_response 409 "Already in reading list",
        base (snd (seedDatabase fixed_salt tick store1))).
Proof.
  assert (H1 : jwt_verify test1_token (JWT_SECRET None) 9000
               = Verified test1_claims) by (vm_compute; reflexivity).
  assert (H2 : jwt_email test1_claims = "test1@gmail.com") by reflexivity.
  assert (H3 : body_bookKey hobbit = Some "/works/OL45804W") by reflexivity.
  exact (conj H1 (conj H2 (conj H3
    (seed_reading_conflict None fixed_salt tick store1 test1_token 9000
       test1_claims hobbit H1 H2 H3)))).
Defined.

End MoreScenarios.
